(** * DistanceCalculation: selection state and distance estimate

    A shallow embedding of [ultralytics/solutions/distance_calculation.py]
    (class [DistanceCalculation]) and the properties of its selection state
    machine and of its distance estimator.

    Conventions of the embedding.
    - The object [self] is a record; every method is a function in a small
      state-and-exception monad over that record.  An exception leaves the
      mutations made before it in place, exactly as in Python.
    - [self.selected_boxes] is a Python [dict]: insertion ordered, unique keys.
      It is an association list whose order is the insertion order.
    - Pixel coordinates, track ids, class ids and the click counter are Python
      integers, hence [Z].  Box coordinates are read at integer pixel values.
    - Python's [float] is IEEE 754 binary64: the kernel's primitive floats.
      [pixels_per_meter] is read as a float.
    - [solutions.extract_tracks], the [Annotator] and the [cv2] window are not
      part of the file.  [start_process] takes the triple that [extract_tracks]
      returns as its input, the annotator is the list of draw requests it
      received, and the key read by [cv2.waitKey] is an input. *)

From Stdlib Require Import ZArith List Lia Bool String.
From Stdlib Require Import Floats.PrimFloat Floats.SpecFloat Floats.FloatOps.
Import ListNotations.
Local Open Scope Z_scope.

Set Implicit Arguments.

(* ------------------------------------------------------------------ *)
(** ** Exceptions and the method monad *)

Inductive exn : Type :=
| TypeError | KeyError | IndexError | AttributeError
| ValueError | ZeroDivisionError | OverflowError.

Inductive outcome (A : Type) : Type :=
| Return (a : A)
| Raise (e : exn).
Arguments Return {A} a.
Arguments Raise {A} e.

Definition returns {A : Type} (o : outcome A) : bool :=
  match o with Return _ => true | Raise _ => false end.

Module Py.
Section Monad.
Variable S : Type.

Definition M (A : Type) : Type := S -> outcome A * S.

Definition ret {A} (a : A) : M A := fun s => (Return a, s).

Definition raise {A} (e : exn) : M A := fun s => (Raise e, s).

Definition bind {A B} (m : M A) (k : A -> M B) : M B :=
  fun s => match m s with
           | (Return a, s') => k a s'
           | (Raise e, s') => (Raise e, s')
           end.

Definition gets {A} (f : S -> A) : M A := fun s => (Return (f s), s).

Definition modify (f : S -> S) : M unit := fun s => (Return tt, f s).

Definition lift {A} (o : outcome A) : M A := fun s => (o, s).

(** [for a in l: body(a)] *)
Fixpoint for_each {A} (l : list A) (body : A -> M unit) : M unit :=
  match l with
  | [] => ret tt
  | a :: l' => bind (body a) (fun _ => for_each l' body)
  end.

(** [[f(a) for a in l]] *)
Fixpoint comprehension {A B} (l : list A) (f : A -> M B) : M (list B) :=
  match l with
  | [] => ret []
  | a :: l' => bind (f a) (fun b =>
               bind (comprehension l' f) (fun bs => ret (b :: bs)))
  end.

End Monad.
End Py.

Arguments Py.ret {S A} a _.
Arguments Py.raise {S A} e _.
Arguments Py.bind {S A B} m k _.
Arguments Py.gets {S A} f _.
Arguments Py.modify {S} f _.
Arguments Py.lift {S A} o _.
Arguments Py.for_each {S A} l body _.
Arguments Py.comprehension {S A B} l f _.

Notation "x <- m ;; k" := (Py.bind m (fun x => k))
  (at level 61, m at next level, right associativity).
Notation "m ;;; k" := (Py.bind m (fun _ => k))
  (at level 61, right associativity).

(* ------------------------------------------------------------------ *)
(** ** Data model *)

(** A bounding box in [xyxy] layout; [b0 .. b3] are [box[0] .. box[3]]. *)
Record box : Type := Box { b0 : Z; b1 : Z; b2 : Z; b3 : Z }.

Definition point : Type := (Z * Z)%type.
Definition color : Type := (Z * Z * Z)%type.

(** The Python [dict] [selected_boxes]: track id to box, in insertion order. *)
Definition dict : Type := list (Z * box).

Fixpoint dict_get (k : Z) (d : dict) : option box :=
  match d with
  | [] => None
  | (k', v) :: d' => if k' =? k then Some v else dict_get k d'
  end.

(** [k in d] *)
Definition dict_contains (k : Z) (d : dict) : bool :=
  match dict_get k d with Some _ => true | None => false end.

(** [d[k] = v]: overwrite in place when [k] is a key, append otherwise. *)
Fixpoint dict_set (k : Z) (v : box) (d : dict) : dict :=
  match d with
  | [] => [(k, v)]
  | (k', v') :: d' =>
      if k' =? k then (k, v) :: d' else (k', v') :: dict_set k v d'
  end.

Definition dict_keys (d : dict) : list Z := map fst d.

(** [len(d)] *)
Definition len {A} (l : list A) : Z := Z.of_nat (List.length l).

(** The requests the external [Annotator] receives. *)
Inductive draw : Type :=
| box_label (b : box) (cls : Z) (label : string)
| plot_distance_and_line (distance_m distance_mm : float)
    (centroids : list point) (line_color centroid_color : color).

(** A frame is known by the requests drawn on it, oldest first. *)
Definition image : Type := list draw.

Record Annotator : Type := mkAnnotator { im : image; lw : Z }.

(** [self.args] once [__init__] has loaded and parsed it. *)
Record Args : Type := mkArgs {
  pixels_per_meter : float;
  line_thickness : Z;
  line_color : color;
  centroid_color : color;
  names : list (Z * string);
  view_img : bool;
  window_name : string
}.

(** What [solutions.extract_tracks(tracks)] returns: [(boxes, clss, trk_ids)],
    each possibly [None]. *)
Record Tracks : Type := mkTracks {
  t_boxes : option (list box);
  t_clss : option (list Z);
  t_ids : option (list Z)
}.

Record DistanceCalculation : Type := mkDC {
  args : Args;
  annotator : option Annotator;
  clss : option (list Z);
  boxes : option (list box);
  trk_ids : option (list Z);
  centroids : list point;
  left_mouse_count : Z;
  selected_boxes : dict;
  env_check : bool
}.

Definition set_annotator (a : option Annotator) (s : DistanceCalculation) :=
  mkDC (args s) a (clss s) (boxes s) (trk_ids s) (centroids s)
       (left_mouse_count s) (selected_boxes s) (env_check s).
Definition set_tracks (t : Tracks) (s : DistanceCalculation) :=
  mkDC (args s) (annotator s) (t_clss t) (t_boxes t) (t_ids t) (centroids s)
       (left_mouse_count s) (selected_boxes s) (env_check s).
Definition set_centroids (c : list point) (s : DistanceCalculation) :=
  mkDC (args s) (annotator s) (clss s) (boxes s) (trk_ids s) c
       (left_mouse_count s) (selected_boxes s) (env_check s).
Definition set_left_mouse_count (n : Z) (s : DistanceCalculation) :=
  mkDC (args s) (annotator s) (clss s) (boxes s) (trk_ids s) (centroids s)
       n (selected_boxes s) (env_check s).
Definition set_selected_boxes (d : dict) (s : DistanceCalculation) :=
  mkDC (args s) (annotator s) (clss s) (boxes s) (trk_ids s) (centroids s)
       (left_mouse_count s) d (env_check s).

Definition M := Py.M DistanceCalculation.

(** [__init__], lines 29-41: [a] is the loaded configuration and [env] the
    answer of [check_imshow]. *)
Definition init (a : Args) (env : bool) : DistanceCalculation :=
  mkDC a None None None None [] 0 [] env.

(* ------------------------------------------------------------------ *)
(** ** Python primitives used by the methods *)

(** [zip(a, b)]: a [None] argument is not iterable. *)
Definition zip2 {A B} (a : option (list A)) (b : option (list B))
  : M (list (A * B)) :=
  match a, b with
  | Some la, Some lb => Py.ret (combine la lb)
  | _, _ => Py.raise TypeError
  end.

Definition zip3 {A B C} (a : option (list A)) (b : option (list B))
    (c : option (list C)) : M (list (A * (B * C))) :=
  match a, b, c with
  | Some la, Some lb, Some lc => Py.ret (combine la (combine lb lc))
  | _, _, _ => Py.raise TypeError
  end.

(** [d[k]] on the selection *)
Definition dict_getitem (k : Z) (d : dict) : M box :=
  match dict_get k d with
  | Some v => Py.ret v
  | None => Py.raise KeyError
  end.

(** [self.args["names"][int(cls)]] *)
Fixpoint names_get (k : Z) (d : list (Z * string)) : option string :=
  match d with
  | [] => None
  | (k', v) :: d' => if k' =? k then Some v else names_get k d'
  end.

Definition names_getitem (k : Z) (d : list (Z * string)) : M string :=
  match names_get k d with
  | Some v => Py.ret v
  | None => Py.raise KeyError
  end.

(** [l[i]] on a list *)
Definition list_getitem {A} (l : list A) (i : nat) : M A :=
  match nth_error l i with
  | Some a => Py.ret a
  | None => Py.raise IndexError
  end.

(** Conversion of a Python [int] to [float]: correctly rounded (to nearest,
    ties to even); an integer that rounds beyond the largest finite binary64
    raises [OverflowError].  The first such magnitude is [2^1024 - 2^970]. *)
Definition float_int_limit : Z := 2 ^ 1024 - 2 ^ 970.

Definition Z2float (n : Z) : float :=
  SF2Prim (binary_normalize prec emax n 0 false).

Definition float_of_int (n : Z) : outcome float :=
  if Z.abs n <? float_int_limit then Return (Z2float n)
  else Raise OverflowError.

(** [math.sqrt(n)] on a Python [int]: [n] is converted first, and a negative
    argument is a domain error.  The conversion keeps the sign, so the test
    is made on [n]. *)
Definition math_sqrt (n : Z) : outcome float :=
  match float_of_int n with
  | Return x => if n <? 0 then Raise ValueError else Return (PrimFloat.sqrt x)
  | Raise e => Raise e
  end.

(** [a / b] on floats *)
Definition truediv (a b : float) : outcome float :=
  if (b =? 0)%float then Raise ZeroDivisionError else Return (a / b)%float.

(** [cv2.EVENT_LBUTTONDOWN], [cv2.EVENT_RBUTTONDOWN] *)
Definition EVENT_LBUTTONDOWN : Z := 1.
Definition EVENT_RBUTTONDOWN : Z := 2.

(* ------------------------------------------------------------------ *)
(** ** The methods *)

(** [box[0] < x < box[2] and box[1] < y < box[3]], line 61 *)
Definition inside (b : box) (x y : Z) : bool :=
  (b0 b <? x) && (x <? b2 b) && (b1 b <? y) && (y <? b3 b).

(** Body of the loop of lines 60-62. *)
Definition select_hit (x y : Z) (bt : box * Z) : M unit :=
  let '(b, track_id) := bt in
  sel <- Py.gets selected_boxes ;;
  if inside b x y && negb (dict_contains track_id sel)
  then Py.modify (fun s => set_selected_boxes (dict_set track_id b (selected_boxes s)) s)
  else Py.ret tt.

(** [mouse_event_for_distance(self, event, x, y, flags, param)], lines 57-66.
    [flags] and [param] are not read. *)
Definition mouse_event_for_distance (event x y : Z) : M unit :=
  if event =? EVENT_LBUTTONDOWN then
    Py.modify (fun s => set_left_mouse_count (left_mouse_count s + 1) s) ;;;
    n <- Py.gets left_mouse_count ;;
    if n <=? 2 then
      bs <- Py.gets boxes ;;
      ids <- Py.gets trk_ids ;;
      pairs <- zip2 bs ids ;;
      Py.for_each pairs (select_hit x y)
    else Py.ret tt
  else if event =? EVENT_RBUTTONDOWN then
    Py.modify (set_selected_boxes []) ;;;
    Py.modify (set_left_mouse_count 0)
  else Py.ret tt.

(** [calculate_distance(self, centroid1, centroid2)], lines 79-81. *)
Definition calculate_distance (centroid1 centroid2 : point) : M (float * float) :=
  pixel_distance <- Py.lift (math_sqrt ((fst centroid1 - fst centroid2) ^ 2
                                        + (snd centroid1 - snd centroid2) ^ 2)) ;;
  ppm <- Py.gets (fun s => pixels_per_meter (args s)) ;;
  distance_m <- Py.lift (truediv pixel_distance ppm) ;;
  Py.ret (distance_m, (distance_m * 1000)%float).

(** [self.annotator.box_label(...)] and [plot_distance_and_line(...)]: the
    method is looked up on [self.annotator] first, then the arguments are
    evaluated ([request]), then the annotator records the request on the
    frame it was built on. *)
Definition annotate (request : M draw) : M unit :=
  a <- Py.gets annotator ;;
  match a with
  | Some an =>
      d <- request ;;
      Py.modify (set_annotator (Some (mkAnnotator (im an ++ [d]) (lw an))))
  | None => Py.raise AttributeError
  end.

(** Lines 101-103: the inner loop over the keys of the selection. *)
Definition refresh_key (track_id : Z) (b : box) (trk_id : Z) : M unit :=
  if trk_id =? track_id
  then Py.modify (fun s => set_selected_boxes (dict_set track_id b (selected_boxes s)) s)
  else Py.ret tt.

(** Lines 98-103: body of the loop over the frame's detections. *)
Definition track_step (d : box * (Z * Z)) : M unit :=
  let '(b, (cls, track_id)) := d in
  annotate (nm <- Py.gets (fun s => names (args s)) ;;
            label <- names_getitem cls nm ;;
            Py.ret (box_label b cls label)) ;;;
  sel <- Py.gets selected_boxes ;;
  if len sel =? 2
  then Py.for_each (dict_keys sel) (refresh_key track_id b)
  else Py.ret tt.

(** Lines 107-110: centroid of the stored box of one selected track. *)
Definition centroid_of (trk_id : Z) : M point :=
  sel <- Py.gets selected_boxes ;;
  u0 <- dict_getitem trk_id sel ;;
  u2 <- dict_getitem trk_id sel ;;
  u1 <- dict_getitem trk_id sel ;;
  u3 <- dict_getitem trk_id sel ;;
  Py.ret ((b0 u0 + b2 u2) / 2, (b1 u1 + b3 u3) / 2).

(** Lines 105-117. *)
Definition measure : M unit :=
  sel <- Py.gets selected_boxes ;;
  if len sel =? 2 then
    cs <- Py.comprehension (dict_keys sel) centroid_of ;;
    Py.modify (set_centroids cs) ;;;
    cur <- Py.gets centroids ;;
    c0 <- list_getitem cur 0 ;;
    c1 <- list_getitem cur 1 ;;
    dist <- calculate_distance c0 c1 ;;
    annotate (cur' <- Py.gets centroids ;;
              a <- Py.gets args ;;
              Py.ret (plot_distance_and_line (fst dist) (snd dist) cur'
                        (line_color a) (centroid_color a)))
  else Py.ret tt.

(** Lines 96-119, run when [self.trk_ids is not None]: the answer is the
    frame [im0] with what the annotator drew on it. *)
Definition annotate_tracks (im0 : image) : M image :=
  a <- Py.gets args ;;
  Py.modify (set_annotator (Some (mkAnnotator im0 (line_thickness a)))) ;;;
  bs <- Py.gets boxes ;;
  cs <- Py.gets clss ;;
  ts <- Py.gets trk_ids ;;
  dets <- zip3 bs cs ts ;;
  Py.for_each dets track_step ;;;
  measure ;;;
  Py.modify (set_centroids []) ;;;
  an <- Py.gets annotator ;;
  Py.ret (match an with Some an' => im an' | None => im0 end).

(** Lines 122-130: the optional display.  [key] is what [cv2.waitKey(1)]
    answers; [113] is [ord("q")].  The answer is [None] when the quit key was
    read and the frame otherwise. *)
Definition display (out : image) (key : Z) : M (option image) :=
  a <- Py.gets args ;;
  env <- Py.gets env_check ;;
  if view_img a && env then
    if Z.land key 255 =? 113 then Py.ret None else Py.ret (Some out)
  else Py.ret (Some out).

(** [start_process(self, im0, tracks)], lines 94-130.  [tracks] stands for
    the result of [extract_tracks(tracks)]. *)
Definition start_process (im0 : image) (tracks : Tracks) (key : Z)
  : M (option image) :=
  Py.modify (set_tracks tracks) ;;;
  ids <- Py.gets trk_ids ;;
  out <- match ids with
         | Some _ => annotate_tracks im0
         | None => Py.ret im0
         end ;;
  display out key.

(* ------------------------------------------------------------------ *)
(** ** The host loop *)

(** What the host delivers to the object: a mouse callback or a frame.  The
    callback runs between frames, on the same thread. *)
Inductive input : Type :=
| Mouse (event x y : Z)
| Frame (im0 : image) (tracks : Tracks) (key : Z).

(** One delivery.  The object keeps the mutations of a call that raised. *)
Definition step (i : input) (s : DistanceCalculation) : DistanceCalculation :=
  match i with
  | Mouse event x y => snd (mouse_event_for_distance event x y s)
  | Frame im0 tracks key => snd (start_process im0 tracks key s)
  end.

Definition run (l : list input) (s : DistanceCalculation) : DistanceCalculation :=
  fold_left (fun s i => step i s) l s.

Definition is_secondary (i : input) : bool :=
  match i with
  | Mouse event _ _ => event =? EVENT_RBUTTONDOWN
  | Frame _ _ _ => false
  end.

Definition is_button_down (i : input) : bool :=
  match i with
  | Mouse event _ _ => (event =? EVENT_LBUTTONDOWN) || (event =? EVENT_RBUTTONDOWN)
  | Frame _ _ _ => false
  end.

(* ------------------------------------------------------------------ *)
(** ** Vocabulary of the properties *)

(** The pairs the click handler walks: [zip(self.boxes, self.trk_ids)], empty
    while either is [None]. *)
Definition click_targets (s : DistanceCalculation) : list (box * Z) :=
  match boxes s, trk_ids s with
  | Some bs, Some ts => combine bs ts
  | _, _ => []
  end.

(** Effect of one pass of the click loop on the selection. *)
Definition click_add (x y : Z) (d : dict) (bt : box * Z) : dict :=
  if inside (fst bt) x y && negb (dict_contains (snd bt) d)
  then dict_set (snd bt) (fst bt) d else d.

(** The targets a point lies strictly inside of. *)
Definition hits (x y : Z) (s : DistanceCalculation) : list (box * Z) :=
  filter (fun bt => inside (fst bt) x y) (click_targets s).

(** A point on the border of a box. *)
Definition on_border (b : box) (x y : Z) : Prop :=
  x = b0 b \/ x = b2 b \/ y = b1 b \/ y = b3 b.

(** The detections of a frame: [zip(boxes, clss, trk_ids)], empty when
    [extract_tracks] found no track. *)
Definition detections (t : Tracks) : list (box * (Z * Z)) :=
  match t_boxes t, t_clss t, t_ids t with
  | Some bs, Some cs, Some ts => combine bs (combine cs ts)
  | _, _, _ => []
  end.

(** The box of the last detection of a frame that carries track id [k]. *)
Fixpoint last_box (k : Z) (dets : list (box * (Z * Z))) : option box :=
  match dets with
  | [] => None
  | (b, (_, t)) :: r =>
      match last_box k r with
      | Some b' => Some b'
      | None => if t =? k then Some b else None
      end
  end.

(** Every class of the frame has a label in [self.args["names"]]. *)
Definition labelled (a : Args) (dets : list (box * (Z * Z))) : bool :=
  forallb (fun d => match names_get (fst (snd d)) (names a) with
                    | Some _ => true | None => false end) dets.

(** Effect of one pass of the frame loop on the selection (lines 100-103). *)
Definition refresh_with (d : dict) (det : box * (Z * Z)) : dict :=
  if len d =? 2
  then fold_left (fun d' k => if k =? snd (snd det)
                              then dict_set (snd (snd det)) (fst det) d' else d')
                 (dict_keys d) d
  else d.

(** What a refresh over the detections [dets] makes of the selection [old]:
    a selected track seen in the frame takes the frame's box, an unseen one
    keeps its box. *)
Definition refreshed (old : dict) (dets : list (box * (Z * Z))) (new : dict) : Prop :=
  forall k b, dict_get k old = Some b ->
    dict_get k new = Some (match last_box k dets with Some b' => b' | None => b end).

(* ------------------------------------------------------------------ *)
(** ** Relations between the object before and after a call *)

(** A method keeps relation [R] between the object before and after the
    call, whether it returns or raises. *)
Definition stable (R : DistanceCalculation -> DistanceCalculation -> Prop)
    {A} (m : M A) : Prop :=
  forall s, R s (snd (m s)).

(** What drawing and measuring keep: everything but the annotator and the
    centroid buffer. *)
Definition same_selection (s s' : DistanceCalculation) : Prop :=
  selected_boxes s' = selected_boxes s
  /\ left_mouse_count s' = left_mouse_count s
  /\ args s' = args s /\ env_check s' = env_check s
  /\ boxes s' = boxes s /\ clss s' = clss s /\ trk_ids s' = trk_ids s.

(** What a whole frame step keeps: the selected track ids in their order, the
    click counter and the configuration; and the selection itself unless it
    holds exactly two tracks. *)
Definition frame_kept (s s' : DistanceCalculation) : Prop :=
  dict_keys (selected_boxes s') = dict_keys (selected_boxes s)
  /\ left_mouse_count s' = left_mouse_count s
  /\ args s' = args s /\ env_check s' = env_check s
  /\ (len (selected_boxes s) <> 2 -> selected_boxes s' = selected_boxes s).

(** What the loop over the detections keeps: the above and the stored
    detections. *)
Definition loop_kept (s s' : DistanceCalculation) : Prop :=
  frame_kept s s'
  /\ boxes s' = boxes s /\ clss s' = clss s /\ trk_ids s' = trk_ids s.

(** A delivery sequence in which every primary click lies strictly inside at
    most one of the targets stored at that moment. *)
Fixpoint single_hits (l : list input) (s : DistanceCalculation) : Prop :=
  match l with
  | [] => True
  | i :: l' =>
      match i with
      | Mouse event x y =>
          event = EVENT_LBUTTONDOWN -> len (hits x y s) <= 1
      | Frame _ _ _ => True
      end /\ single_hits l' (step i s)
  end.

(* ------------------------------------------------------------------ *)
(** ** Sample data *)

(** A sample configuration: the class names of the entry point and ten
    pixels per metre. *)
Definition sample_args : Args :=
  mkArgs 10%float 2 (255, 0, 255) (0, 255, 0)
         [(0, "person"%string); (1, "car"%string)] true "distance"%string.

(** Two objects side by side. *)
Definition two_apart : Tracks :=
  mkTracks (Some [Box 0 0 10 10; Box 100 0 110 10]) (Some [0; 1]) (Some [1; 2]).

(** The first object has moved, the second is no longer tracked. *)
Definition one_moved : Tracks :=
  mkTracks (Some [Box 1 1 11 11]) (Some [0]) (Some [1]).

(** Two overlapping objects and a third one apart. *)
Definition two_overlapping : Tracks :=
  mkTracks (Some [Box 0 0 10 10; Box 2 2 12 12; Box 100 0 110 10])
           (Some [0; 0; 1]) (Some [1; 2; 3]).

(** Three objects whose boxes share the point (5, 5). *)
Definition three_overlapping : Tracks :=
  mkTracks (Some [Box 0 0 10 10; Box 2 2 12 12; Box 4 4 14 14])
           (Some [0; 0; 1]) (Some [1; 2; 3]).

(** A frame in which the tracker reports no track: [extract_tracks] returns
    [(None, None, None)]. *)
Definition no_tracks : Tracks := mkTracks None None None.

(** One object selected. *)
Definition one_selected : DistanceCalculation :=
  run [Frame [] two_apart 0; Mouse EVENT_LBUTTONDOWN 5 5] (init sample_args true).

(** Both objects selected, by one click each. *)
Definition both_selected : DistanceCalculation :=
  run [Frame [] two_apart 0; Mouse EVENT_LBUTTONDOWN 5 5;
       Mouse EVENT_LBUTTONDOWN 105 5] (init sample_args true).

(** Two objects selected by a single click on their overlap. *)
Definition two_by_one_click : DistanceCalculation :=
  run [Frame [] two_overlapping 0; Mouse EVENT_LBUTTONDOWN 5 5]
      (init sample_args true).

(* ------------------------------------------------------------------ *)
(** ** Vocabulary of the further properties *)

(** The click counter after a sequence of deliveries that started at [n]: a
    primary click adds one, a secondary click sets it to zero. *)
Definition counted (n : Z) (l : list input) : Z :=
  fold_left (fun c i => match i with
                        | Mouse event _ _ =>
                            if event =? EVENT_LBUTTONDOWN then c + 1
                            else if event =? EVENT_RBUTTONDOWN then 0
                            else c
                        | Frame _ _ _ => c
                        end) l n.

(** The first stored target of track [k] that holds the point. *)
Definition first_hit (k x y : Z) (s : DistanceCalculation) : option (box * Z) :=
  find (fun bt => (snd bt =? k) && inside (fst bt) x y) (click_targets s).

(** [(box[0] + box[2]) // 2, (box[1] + box[3]) // 2], lines 108-109. *)
Definition mid (b : box) : point := ((b0 b + b2 b) / 2, (b1 b + b3 b) / 2).

(** The centroid list of lines 106-112, one entry per key. *)
Definition centroids_of (d : dict) : list point :=
  flat_map (fun k => match dict_get k d with
                     | Some b => [mid b]
                     | None => []
                     end) (dict_keys d).

(** The [box_label] request of one detection (line 98), none without a label. *)
Definition label_request (nm : list (Z * string)) (det : box * (Z * Z)) : list draw :=
  match names_get (fst (snd det)) nm with
  | Some label => [box_label (fst det) (fst (snd det)) label]
  | None => []
  end.

(** The selection after the refresh of a frame. *)
Definition refreshed_selection (s : DistanceCalculation) (t : Tracks) : dict :=
  fold_left refresh_with (detections t) (selected_boxes s).

(** [extract_tracks] answers three values or three [None]. *)
Definition consistent (t : Tracks) : bool :=
  match t_boxes t, t_clss t, t_ids t with
  | Some _, Some _, Some _ => true
  | None, None, None => true
  | _, _, _ => false
  end.

(** Coordinates of at most 32 bits. *)
Definition in_range (b : box) : bool :=
  (Z.abs (b0 b) <=? 2 ^ 32) && (Z.abs (b1 b) <=? 2 ^ 32)
  && (Z.abs (b2 b) <=? 2 ^ 32) && (Z.abs (b3 b) <=? 2 ^ 32).

(** A frame of one detection whose class has no label in [sample_args]. *)
Definition unlabelled_frame : Tracks :=
  mkTracks (Some [Box 0 0 10 10; Box 20 20 30 30]) (Some [0; 7]) (Some [1; 2]).

(** The sample configuration with a calibration of zero. *)
Definition zero_calibration : Args :=
  mkArgs 0%float 2 (255, 0, 255) (0, 255, 0)
         [(0, "person"%string); (1, "car"%string)] true "distance"%string.

(** The [plot_distance_and_line] request of a frame (lines 105-117): none
    unless the selection holds two tracks and the distance was computed. *)
Definition distance_request (s : DistanceCalculation) (d : dict) : list draw :=
  if len d =? 2 then
    match centroids_of d with
    | [c0; c1] =>
        match fst (calculate_distance c0 c1 s) with
        | Return dist =>
            [plot_distance_and_line (fst dist) (snd dist) [c0; c1]
               (line_color (args s)) (centroid_color (args s))]
        | Raise _ => []
        end
    | _ => []
    end
  else [].

(** What [start_process] answers once the frame [out] is drawn (lines
    122-130). *)
Definition display_answer (s : DistanceCalculation) (key : Z) (out : image)
  : option image :=
  if view_img (args s) && env_check s
  then if Z.land key 255 =? 113 then None else Some out
  else Some out.

(** The frame as [start_process] draws it: the incoming frame, one label per
    detection, then the distance when it is due. *)
Definition drawn (s : DistanceCalculation) (im0 : image) (t : Tracks) : image :=
  im0 ++ flat_map (label_request (names (args s))) (detections t)
      ++ distance_request s (refreshed_selection s t).

(** Every box of a selection, and of a frame, has coordinates of at most 32
    bits. *)
Definition selection_in_range (d : dict) : bool :=
  forallb (fun kb => in_range (snd kb)) d.

Definition frame_in_range (t : Tracks) : bool :=
  forallb (fun det => in_range (fst det)) (detections t).

(** Both objects selected under a calibration of zero. *)
Definition both_selected_zero : DistanceCalculation :=
  run [Frame [] two_apart 0; Mouse EVENT_LBUTTONDOWN 5 5;
       Mouse EVENT_LBUTTONDOWN 105 5] (init zero_calibration true).

(* ------------------------------------------------------------------ *)
(** ** The dictionary *)

Lemma dict_get_set_same (k : Z) (v : box) (d : dict) :
  dict_get k (dict_set k v d) = Some v.
Proof.
  induction d as [|[k' v'] d IH]; simpl.
  - now rewrite Z.eqb_refl.
  - destruct (k' =? k) eqn:E; simpl.
    + now rewrite Z.eqb_refl.
    + now rewrite E.
Qed.

Lemma dict_get_set_other (k k' : Z) (v : box) (d : dict) :
  k <> k' -> dict_get k' (dict_set k v d) = dict_get k' d.
Proof.
  intros Hne. induction d as [|[k0 v0] d IH]; simpl.
  - destruct (k =? k') eqn:E; [apply Z.eqb_eq in E; contradiction | reflexivity].
  - destruct (k0 =? k) eqn:E; simpl.
    + apply Z.eqb_eq in E; subst k0.
      destruct (k =? k') eqn:E'; [apply Z.eqb_eq in E'; contradiction | reflexivity].
    + now rewrite IH.
Qed.

Lemma dict_contains_keys (k : Z) (d : dict) :
  dict_contains k d = true <-> In k (dict_keys d).
Proof.
  unfold dict_contains.
  induction d as [|[k' v'] d IH]; simpl.
  - split; [discriminate | tauto].
  - destruct (k' =? k) eqn:E.
    + apply Z.eqb_eq in E. split; auto.
    + apply Z.eqb_neq in E. rewrite IH. split; [auto | intros [H|H]; [contradiction | exact H]].
Qed.

Lemma dict_set_keys_present (k : Z) (v : box) (d : dict) :
  dict_contains k d = true -> dict_keys (dict_set k v d) = dict_keys d.
Proof.
  unfold dict_contains.
  induction d as [|[k' v'] d IH]; simpl; [discriminate|].
  destruct (k' =? k) eqn:E; simpl; intros H.
  - apply Z.eqb_eq in E. now subst.
  - now rewrite IH.
Qed.

Lemma dict_set_keys_absent (k : Z) (v : box) (d : dict) :
  dict_contains k d = false -> dict_keys (dict_set k v d) = dict_keys d ++ [k].
Proof.
  unfold dict_contains.
  induction d as [|[k' v'] d IH]; simpl; [reflexivity|].
  destruct (k' =? k) eqn:E; simpl; intros H; [discriminate|].
  now rewrite IH.
Qed.

Lemma len_keys (d : dict) : len (dict_keys d) = len d.
Proof. unfold len, dict_keys. now rewrite length_map. Qed.

Lemma dict_keys_NoDup_set (k : Z) (v : box) (d : dict) :
  NoDup (dict_keys d) -> NoDup (dict_keys (dict_set k v d)).
Proof.
  intros Hnd. destruct (dict_contains k d) eqn:E.
  - now rewrite dict_set_keys_present.
  - rewrite dict_set_keys_absent by exact E.
    apply NoDup_app; [exact Hnd | repeat constructor; simpl; tauto |].
    intros a Ha [<-|[]].
    apply dict_contains_keys in Ha. congruence.
Qed.

(* ------------------------------------------------------------------ *)
(** ** The click handler, step by step *)

Lemma set_selected_boxes_same (s : DistanceCalculation) :
  set_selected_boxes (selected_boxes s) s = s.
Proof. now destruct s. Qed.

Lemma select_hit_run (x y : Z) (bt : box * Z) (s : DistanceCalculation) :
  select_hit x y bt s
  = (Return tt, set_selected_boxes (click_add x y (selected_boxes s) bt) s).
Proof.
  destruct bt as [b t]. unfold select_hit, click_add, Py.bind, Py.gets; simpl.
  destruct (inside b x y && negb (dict_contains t (selected_boxes s))).
  - reflexivity.
  - unfold Py.ret. now rewrite set_selected_boxes_same.
Qed.

Lemma click_loop_run (x y : Z) (pairs : list (box * Z)) (s : DistanceCalculation) :
  Py.for_each pairs (select_hit x y) s
  = (Return tt,
     set_selected_boxes (fold_left (click_add x y) pairs (selected_boxes s)) s).
Proof.
  revert s. induction pairs as [|bt pairs IH]; intros s; simpl.
  - unfold Py.ret. now rewrite set_selected_boxes_same.
  - unfold Py.bind. rewrite select_hit_run, IH. now destruct s.
Qed.

(** The selection after a primary click, in closed form. *)
Lemma primary_click_selection (x y : Z) (s : DistanceCalculation) :
  selected_boxes (snd (mouse_event_for_distance EVENT_LBUTTONDOWN x y s))
  = if left_mouse_count s + 1 <=? 2
    then fold_left (click_add x y) (click_targets s) (selected_boxes s)
    else selected_boxes s.
Proof.
  unfold mouse_event_for_distance, click_targets, Py.bind, Py.modify, Py.gets; simpl.
  destruct (left_mouse_count s + 1 <=? 2); [|reflexivity].
  cbn [boxes trk_ids set_left_mouse_count].
  destruct (boxes s) as [bs|], (trk_ids s) as [ts|]; simpl; try reflexivity.
  rewrite click_loop_run. reflexivity.
Qed.

Lemma primary_click_count (x y : Z) (s : DistanceCalculation) :
  left_mouse_count (snd (mouse_event_for_distance EVENT_LBUTTONDOWN x y s))
  = left_mouse_count s + 1.
Proof.
  unfold mouse_event_for_distance, Py.bind, Py.modify, Py.gets; simpl.
  destruct (left_mouse_count s + 1 <=? 2); [|reflexivity].
  cbn [boxes trk_ids set_left_mouse_count].
  destruct (boxes s) as [bs|], (trk_ids s) as [ts|]; simpl; try reflexivity.
  rewrite click_loop_run. reflexivity.
Qed.

Lemma inside_spec (b : box) (x y : Z) :
  inside b x y = true <-> (b0 b < x < b2 b /\ b1 b < y < b3 b).
Proof.
  unfold inside. rewrite !andb_true_iff, !Z.ltb_lt. tauto.
Qed.

Lemma on_border_not_inside (b : box) (x y : Z) :
  on_border b x y -> inside b x y = false.
Proof.
  intros H. destruct (inside b x y) eqn:E; [|reflexivity].
  apply inside_spec in E. unfold on_border in H. lia.
Qed.

(** Where an entry of the selection after the click loop comes from. *)
Lemma click_fold_origin (x y : Z) (pairs : list (box * Z)) :
  forall (d : dict) (k : Z) (b : box),
    dict_get k (fold_left (click_add x y) pairs d) = Some b ->
    dict_get k d = Some b
    \/ (dict_get k d = None /\ In (b, k) pairs /\ inside b x y = true).
Proof.
  induction pairs as [|[b' t'] pairs IH]; intros d k b H; simpl in *.
  - now left.
  - apply IH in H. unfold click_add in H |- *; simpl in *.
    destruct (inside b' x y) eqn:Hin; simpl in H.
    + destruct (dict_contains t' d) eqn:Hc; simpl in H.
      * destruct H as [H|(H1 & H2 & H3)]; [now left | right; auto].
      * unfold dict_contains in Hc.
        destruct (Z.eq_dec t' k) as [->|Hne].
        -- rewrite dict_get_set_same in H.
           destruct H as [H|(H1 & _)]; [|discriminate].
           injection H as <-. right.
           destruct (dict_get k d); [discriminate | auto].
        -- rewrite dict_get_set_other in H by exact Hne.
           destruct H as [H|(H1 & H2 & H3)]; [now left | right; auto].
    + destruct H as [H|(H1 & H2 & H3)]; [now left | right; auto].
Qed.

(** The click loop never touches an entry that is already there. *)
Lemma click_fold_keeps (x y : Z) (pairs : list (box * Z)) :
  forall (d : dict) (k : Z) (b : box),
    dict_get k d = Some b ->
    dict_get k (fold_left (click_add x y) pairs d) = Some b.
Proof.
  induction pairs as [|[b' t'] pairs IH]; intros d k b H; simpl; [exact H|].
  apply IH. unfold click_add; simpl.
  destruct (inside b' x y && negb (dict_contains t' d)) eqn:E; [|exact H].
  apply andb_true_iff in E. destruct E as [_ E].
  apply negb_true_iff in E. unfold dict_contains in E.
  rewrite dict_get_set_other; [exact H|].
  intros ->. rewrite H in E. discriminate.
Qed.

(** When no target is hit the loop changes nothing. *)
Lemma click_fold_miss (x y : Z) (pairs : list (box * Z)) (d : dict) :
  filter (fun bt => inside (fst bt) x y) pairs = [] ->
  fold_left (click_add x y) pairs d = d.
Proof.
  induction pairs as [|[b t] pairs IH]; simpl; [reflexivity|].
  unfold click_add at 2; simpl.
  destruct (inside b x y); [discriminate|]. exact IH.
Qed.

(** One pass of the loop adds at most one key. *)
Lemma click_add_len (x y : Z) (d : dict) (bt : box * Z) :
  len (click_add x y d bt)
  = len d + (if inside (fst bt) x y && negb (dict_contains (snd bt) d) then 1 else 0).
Proof.
  unfold click_add.
  destruct (inside (fst bt) x y && negb (dict_contains (snd bt) d)) eqn:E; [|lia].
  apply andb_true_iff in E. destruct E as [_ E]. apply negb_true_iff in E.
  rewrite <- !len_keys, dict_set_keys_absent by exact E.
  unfold len. rewrite length_app. simpl. lia.
Qed.

Lemma len_cons {A} (a : A) (l : list A) : len (a :: l) = len l + 1.
Proof. unfold len. cbn [List.length]. lia. Qed.

Lemma click_fold_len (x y : Z) (pairs : list (box * Z)) :
  forall d : dict,
    len d <= len (fold_left (click_add x y) pairs d)
    <= len d + len (filter (fun bt => inside (fst bt) x y) pairs).
Proof.
  induction pairs as [|bt pairs IH]; intros d.
  - cbn [fold_left filter]. change (len (@nil (box * Z))) with 0. lia.
  - cbn [fold_left filter].
    specialize (IH (click_add x y d bt)). rewrite click_add_len in IH.
    destruct (inside (fst bt) x y).
    + rewrite len_cons.
      destruct (negb (dict_contains (snd bt) d)); cbn [andb] in IH; lia.
    + cbn [andb] in IH. lia.
Qed.

Lemma click_fold_NoDup (x y : Z) (pairs : list (box * Z)) :
  forall d : dict,
    NoDup (dict_keys d) -> NoDup (dict_keys (fold_left (click_add x y) pairs d)).
Proof.
  induction pairs as [|bt pairs IH]; intros d H; simpl; [exact H|].
  apply IH. unfold click_add.
  destruct (inside (fst bt) x y && negb (dict_contains (snd bt) d)); [|exact H].
  now apply dict_keys_NoDup_set.
Qed.

(** Events other than the two button presses do nothing. *)
Lemma other_event_ignored (event x y : Z) (s : DistanceCalculation) :
  event <> EVENT_LBUTTONDOWN -> event <> EVENT_RBUTTONDOWN ->
  mouse_event_for_distance event x y s = (Return tt, s).
Proof.
  intros H1 H2. unfold mouse_event_for_distance.
  apply Z.eqb_neq in H1, H2. now rewrite H1, H2.
Qed.

(** Once detections are stored, a primary click returns. *)
Lemma primary_click_returns (x y : Z) (s : DistanceCalculation) (bs : list box) (ts : list Z) :
  boxes s = Some bs -> trk_ids s = Some ts ->
  fst (mouse_event_for_distance EVENT_LBUTTONDOWN x y s) = Return tt.
Proof.
  intros Hb Ht.
  unfold mouse_event_for_distance, Py.bind, Py.modify, Py.gets; simpl.
  destruct (left_mouse_count s + 1 <=? 2); [|reflexivity].
  cbn [boxes trk_ids set_left_mouse_count]. rewrite Hb, Ht; simpl.
  now rewrite click_loop_run.
Qed.

(* ------------------------------------------------------------------ *)
(** ** What a call leaves untouched *)

Section Stable.
Variable R : DistanceCalculation -> DistanceCalculation -> Prop.
Hypothesis R_refl : forall s, R s s.
Hypothesis R_trans : forall s1 s2 s3, R s1 s2 -> R s2 s3 -> R s1 s3.

Lemma stable_ret {A} (a : A) : stable R (Py.ret a).
Proof. intros s. apply R_refl. Qed.

Lemma stable_raise {A} (e : exn) : stable R (Py.raise (A := A) e).
Proof. intros s. apply R_refl. Qed.

Lemma stable_gets {A} (f : DistanceCalculation -> A) : stable R (Py.gets f).
Proof. intros s. apply R_refl. Qed.

Lemma stable_lift {A} (o : outcome A) : stable R (Py.lift o).
Proof. intros s. apply R_refl. Qed.

Lemma stable_modify (f : DistanceCalculation -> DistanceCalculation) :
  (forall s, R s (f s)) -> stable R (Py.modify f).
Proof. intros H s. apply H. Qed.

Lemma stable_bind {A B} (m : M A) (k : A -> M B) :
  stable R m -> (forall a, stable R (k a)) -> stable R (Py.bind m k).
Proof.
  intros Hm Hk s. unfold Py.bind.
  specialize (Hm s). destruct (m s) as [[a|e] s']; simpl in *.
  - eapply R_trans; [exact Hm | apply Hk].
  - exact Hm.
Qed.

Lemma stable_for_each {A} (l : list A) (body : A -> M unit) :
  (forall a, stable R (body a)) -> stable R (Py.for_each l body).
Proof.
  intros Hb. induction l as [|a l IH]; simpl.
  - apply stable_ret.
  - apply stable_bind; [apply Hb | intros _; exact IH].
Qed.

Lemma stable_comprehension {A B} (l : list A) (f : A -> M B) :
  (forall a, stable R (f a)) -> stable R (Py.comprehension l f).
Proof.
  intros Hf. induction l as [|a l IH]; simpl.
  - apply stable_ret.
  - apply stable_bind; [apply Hf | intros b].
    apply stable_bind; [exact IH | intros bs; apply stable_ret].
Qed.
End Stable.

Lemma stable_weaken (R R' : DistanceCalculation -> DistanceCalculation -> Prop)
    {A} (m : M A) :
  (forall s s', R s s' -> R' s s') -> stable R m -> stable R' m.
Proof. intros H Hm s. apply H, Hm. Qed.

Lemma same_selection_refl s : same_selection s s.
Proof. repeat split. Qed.

Lemma same_selection_trans s1 s2 s3 :
  same_selection s1 s2 -> same_selection s2 s3 -> same_selection s1 s3.
Proof.
  unfold same_selection.
  intros (A1 & B1 & C1 & D1 & E1 & F1 & G1) (A2 & B2 & C2 & D2 & E2 & F2 & G2).
  repeat split; congruence.
Qed.

Lemma frame_kept_refl s : frame_kept s s.
Proof. repeat split. Qed.

Lemma frame_kept_trans s1 s2 s3 :
  frame_kept s1 s2 -> frame_kept s2 s3 -> frame_kept s1 s3.
Proof.
  unfold frame_kept.
  intros (A1 & B1 & C1 & D1 & E1) (A2 & B2 & C2 & D2 & E2).
  repeat split; try congruence.
  intros H. rewrite E2, E1; auto. rewrite E1; auto.
Qed.

Lemma same_selection_frame_kept s s' : same_selection s s' -> frame_kept s s'.
Proof.
  unfold same_selection, frame_kept. intros (A1 & B1 & C1 & D1 & _).
  repeat split; congruence.
Qed.

Lemma loop_kept_refl s : loop_kept s s.
Proof. repeat split. Qed.

Lemma loop_kept_trans s1 s2 s3 :
  loop_kept s1 s2 -> loop_kept s2 s3 -> loop_kept s1 s3.
Proof.
  unfold loop_kept. intros (A1 & B1 & C1 & D1) (A2 & B2 & C2 & D2).
  split; [eapply frame_kept_trans; eassumption | repeat split; congruence].
Qed.

Lemma same_selection_loop_kept s s' : same_selection s s' -> loop_kept s s'.
Proof.
  intros H. split; [now apply same_selection_frame_kept|].
  unfold same_selection in H. tauto.
Qed.

Create HintDb dc.

#[local] Hint Resolve same_selection_refl same_selection_trans
  frame_kept_refl frame_kept_trans loop_kept_refl loop_kept_trans : dc.

Ltac stable_side :=
  lazymatch goal with
  | |- forall _, stable _ _ => intros ?
  | |- stable _ _ => idtac
  | |- _ => solve [eauto with dc]
  end.

Ltac stable_step :=
  first
    [ apply stable_ret | apply stable_raise | apply stable_gets | apply stable_lift
    | apply stable_bind; stable_side
    | apply stable_for_each; stable_side
    | apply stable_comprehension; stable_side
    | apply stable_modify; intros ?; repeat split; reflexivity ];
  try solve [eauto with dc].

Lemma stable_dict_getitem R (k : Z) (d : dict) :
  (forall s, R s s) -> stable R (dict_getitem k d).
Proof.
  intros Hr. unfold dict_getitem. destruct (dict_get k d); intros s; apply Hr.
Qed.

Lemma stable_list_getitem R {A} (l : list A) (i : nat) :
  (forall s, R s s) -> stable R (list_getitem l i).
Proof.
  intros Hr. unfold list_getitem. destruct (nth_error l i); intros s; apply Hr.
Qed.

Lemma stable_annotate (request : M draw) :
  stable same_selection request -> stable same_selection (annotate request).
Proof.
  intros Hr. unfold annotate. stable_step; [stable_step|].
  match goal with |- stable _ (match ?o with _ => _ end) => destruct o end;
    repeat stable_step.
Qed.

Lemma stable_calculate_distance (c1 c2 : point) :
  stable same_selection (calculate_distance c1 c2).
Proof. unfold calculate_distance. repeat stable_step. Qed.

Lemma stable_centroid_of (k : Z) : stable same_selection (centroid_of k).
Proof.
  unfold centroid_of.
  repeat first [ apply stable_dict_getitem; auto with dc | stable_step ].
Qed.

Lemma stable_measure : stable same_selection measure.
Proof.
  unfold measure. stable_step; [stable_step|].
  match goal with |- stable _ (if ?c then _ else _) => destruct c end;
    [|stable_step].
  repeat first [ apply stable_list_getitem; auto with dc
               | apply stable_centroid_of
               | apply stable_calculate_distance
               | apply stable_annotate
               | stable_step ].
Qed.

(* ------------------------------------------------------------------ *)
(** ** The frame step *)

Lemma dict_set_idem (k : Z) (v : box) (d : dict) :
  dict_set k v (dict_set k v d) = dict_set k v d.
Proof.
  induction d as [|[k' v'] d IH]; simpl.
  - now rewrite Z.eqb_refl.
  - destruct (k' =? k) eqn:E; simpl.
    + now rewrite Z.eqb_refl.
    + now rewrite E, IH.
Qed.

Lemma existsb_keys (k : Z) (d : dict) :
  existsb (fun k' => k' =? k) (dict_keys d) = dict_contains k d.
Proof.
  unfold dict_contains. induction d as [|[k' v'] d IH]; simpl; [reflexivity|].
  destruct (k' =? k); simpl; [reflexivity | exact IH].
Qed.

(** The loop of lines 101-103 writes the frame's box once if the track is
    selected and not at all otherwise. *)
Lemma refresh_keys_fold (t : Z) (b : box) (keys : list Z) :
  forall d : dict,
    fold_left (fun d' k => if k =? t then dict_set t b d' else d') keys d
    = if existsb (fun k => k =? t) keys then dict_set t b d else d.
Proof.
  induction keys as [|k keys IH]; intros d; simpl; [reflexivity|].
  rewrite IH. destruct (k =? t); simpl; [|reflexivity].
  rewrite dict_set_idem. now destruct (existsb _ keys).
Qed.

Lemma refresh_with_spec (d : dict) (b : box) (c t : Z) :
  refresh_with d (b, (c, t))
  = if (len d =? 2) && dict_contains t d then dict_set t b d else d.
Proof.
  unfold refresh_with; simpl.
  destruct (len d =? 2); simpl; [|reflexivity].
  now rewrite refresh_keys_fold, existsb_keys.
Qed.

Lemma refresh_with_keys (d : dict) (det : box * (Z * Z)) :
  dict_keys (refresh_with d det) = dict_keys d.
Proof.
  destruct det as [b [c t]]. rewrite refresh_with_spec.
  destruct (len d =? 2); simpl; [|reflexivity].
  destruct (dict_contains t d) eqn:E; [|reflexivity].
  now apply dict_set_keys_present.
Qed.

Lemma refresh_with_len (d : dict) (det : box * (Z * Z)) :
  len (refresh_with d det) = len d.
Proof. now rewrite <- len_keys, refresh_with_keys, len_keys. Qed.

Lemma refresh_with_other (d : dict) (det : box * (Z * Z)) :
  len d <> 2 -> refresh_with d det = d.
Proof.
  intros H. unfold refresh_with. apply Z.eqb_neq in H. now rewrite H.
Qed.

Lemma refresh_fold_keys (dets : list (box * (Z * Z))) :
  forall d : dict, dict_keys (fold_left refresh_with dets d) = dict_keys d.
Proof.
  induction dets as [|det dets IH]; intros d; simpl; [reflexivity|].
  now rewrite IH, refresh_with_keys.
Qed.

(** The selection after the frame loop, entry by entry. *)
Lemma refresh_fold_get (dets : list (box * (Z * Z))) :
  forall d : dict, len d = 2 ->
    refreshed d dets (fold_left refresh_with dets d).
Proof.
  unfold refreshed.
  induction dets as [|[b [c t]] dets IH]; intros d Hlen k v Hk; simpl.
  - exact Hk.
  - assert (Hl : len (refresh_with d (b, (c, t))) = 2)
      by now rewrite refresh_with_len.
    rewrite refresh_with_spec in *.
    apply Z.eqb_eq in Hlen. rewrite Hlen in *. simpl in *.
    destruct (Z.eq_dec t k) as [->|Hne].
    + unfold dict_contains in *. rewrite Hk in *.
      rewrite (IH _ Hl k b) by apply dict_get_set_same.
      rewrite Z.eqb_refl. now destruct (last_box k dets).
    + assert (Hk' : dict_get k (if dict_contains t d then dict_set t b d else d)
                    = Some v).
      { destruct (dict_contains t d); [|exact Hk].
        now rewrite dict_get_set_other. }
      rewrite (IH _ Hl k v Hk').
      apply Z.eqb_neq in Hne. rewrite Hne. now destruct (last_box k dets).
Qed.

Lemma inner_refresh_run (t : Z) (b : box) (keys : list Z) :
  forall s : DistanceCalculation,
    Py.for_each keys (refresh_key t b) s
    = (Return tt,
       set_selected_boxes
         (fold_left (fun d' k => if k =? t then dict_set t b d' else d')
                    keys (selected_boxes s)) s).
Proof.
  induction keys as [|k keys IH]; intros s; simpl.
  - unfold Py.ret. now rewrite set_selected_boxes_same.
  - unfold Py.bind, refresh_key at 1.
    destruct (k =? t); unfold Py.modify, Py.ret; rewrite IH; [|reflexivity].
    now destruct s.
Qed.

(** One pass of the frame loop, in closed form. *)
Lemma track_step_run (b : box) (c t : Z) (s : DistanceCalculation) :
  track_step (b, (c, t)) s
  = match annotator s with
    | None => (Raise AttributeError, s)
    | Some an =>
        match names_get c (names (args s)) with
        | None => (Raise KeyError, s)
        | Some label =>
            (Return tt,
             set_selected_boxes (refresh_with (selected_boxes s) (b, (c, t)))
               (set_annotator
                  (Some (mkAnnotator (im an ++ [box_label b c label]) (lw an))) s))
        end
    end.
Proof.
  unfold track_step, names_getitem, annotate, Py.bind, Py.gets.
  destruct (annotator s) as [an|]; [|reflexivity].
  destruct (names_get c (names (args s))) as [label|]; [|reflexivity].
  unfold Py.ret at 1 2. unfold Py.modify at 1. cbn [selected_boxes set_annotator].
  unfold refresh_with. cbn [fst snd].
  destruct (len (selected_boxes s) =? 2).
  - rewrite inner_refresh_run. reflexivity.
  - unfold Py.ret. now destruct s.
Qed.

Lemma stable_track_step (det : box * (Z * Z)) : stable loop_kept (track_step det).
Proof.
  destruct det as [b [c t]]. intros s. rewrite track_step_run.
  destruct (annotator s); [|apply loop_kept_refl].
  destruct (names_get c (names (args s))); [|apply loop_kept_refl].
  unfold loop_kept, frame_kept;
    cbn [snd selected_boxes set_selected_boxes set_annotator
         left_mouse_count args env_check boxes clss trk_ids].
  repeat split.
  - apply refresh_with_keys.
  - apply refresh_with_other.
Qed.

Lemma stable_zip3 R {A B C} (a : option (list A)) (b : option (list B))
    (c : option (list C)) :
  (forall s, R s s) -> stable R (zip3 a b c).
Proof. intros Hr. unfold zip3. destruct a, b, c; intros s; apply Hr. Qed.

(** Lines 96-119 keep the stored detections, the selected ids, the counter
    and the configuration. *)
Lemma stable_annotate_tracks (im0 : image) : stable loop_kept (annotate_tracks im0).
Proof.
  assert (W : forall A (m : M A), stable same_selection m -> stable loop_kept m)
    by (intros A m; apply stable_weaken, same_selection_loop_kept).
  unfold annotate_tracks.
  do 5 (stable_step; [stable_step|]).
  stable_step; [apply stable_zip3; auto with dc|].
  stable_step; [stable_step; apply stable_track_step|].
  stable_step; [apply W, stable_measure|].
  repeat stable_step.
Qed.

(** The display changes nothing of the object and always returns. *)
Lemma display_run (out : image) (key : Z) (s : DistanceCalculation) :
  display out key s
  = (Return (if view_img (args s) && env_check s
             then if Z.land key 255 =? 113 then None else Some out
             else Some out), s).
Proof.
  unfold display, Py.bind, Py.gets, Py.ret.
  destruct (view_img (args s) && env_check s); [|reflexivity].
  now destruct (Z.land key 255 =? 113).
Qed.

Lemma stable_display R (out : image) (key : Z) :
  (forall s, R s s) -> stable R (display out key).
Proof. intros Hr s. rewrite display_run. apply Hr. Qed.

(** A frame step keeps the selected ids, the counter and the configuration,
    and the whole selection unless exactly two tracks are selected. *)
Lemma stable_start_process (im0 : image) (tracks : Tracks) (key : Z) :
  stable frame_kept (start_process im0 tracks key).
Proof.
  unfold start_process.
  stable_step; [stable_step|].
  stable_step; [stable_step|].
  stable_step; [|apply stable_display; auto with dc].
  match goal with |- stable _ (match ?o with _ => _ end) => destruct o end;
    [|stable_step].
  eapply stable_weaken; [|apply stable_annotate_tracks].
  unfold loop_kept; tauto.
Qed.

(** A frame step stores the detections it was given, whatever follows. *)
Lemma start_process_stores (im0 : image) (tracks : Tracks) (key : Z)
    (s : DistanceCalculation) :
  boxes (snd (start_process im0 tracks key s)) = t_boxes tracks
  /\ clss (snd (start_process im0 tracks key s)) = t_clss tracks
  /\ trk_ids (snd (start_process im0 tracks key s)) = t_ids tracks.
Proof.
  assert (G : stable (fun s s' => boxes s' = boxes s /\ clss s' = clss s
                                  /\ trk_ids s' = trk_ids s)
                     (ids <- Py.gets trk_ids ;;
                      out <- match ids with
                             | Some _ => annotate_tracks im0
                             | None => Py.ret im0
                             end ;;
                      display out key)).
  { apply stable_bind; [intros s1 s2 s3 (A1 & B1 & C1) (A2 & B2 & C2);
                        repeat split; congruence | apply stable_gets; auto |].
    intros ids. apply stable_bind;
      [intros s1 s2 s3 (A1 & B1 & C1) (A2 & B2 & C2); repeat split; congruence | |
       intros out; apply stable_display; auto].
    destruct ids; [|apply stable_ret; auto].
    eapply stable_weaken; [|apply stable_annotate_tracks].
    unfold loop_kept; tauto. }
  exact (G (set_tracks tracks s)).
Qed.

Lemma selected_after_bind {A B} (m : M A) (k : A -> M B) (s : DistanceCalculation) :
  (forall a, stable same_selection (k a)) ->
  selected_boxes (snd (Py.bind m k s)) = selected_boxes (snd (m s)).
Proof.
  intros Hk. unfold Py.bind. destruct (m s) as [[a|e] s']; simpl; [|reflexivity].
  apply Hk.
Qed.

Lemma labelled_cons (a : Args) (b : box) (c t : Z) (dets : list (box * (Z * Z))) :
  labelled a ((b, (c, t)) :: dets) = true ->
  (exists label, names_get c (names a) = Some label) /\ labelled a dets = true.
Proof.
  unfold labelled; simpl. intros H. apply andb_true_iff in H. destruct H as [H1 H2].
  split; [|exact H2]. destruct (names_get c (names a)) as [l|]; [eauto | discriminate].
Qed.

(** With a label for every class the frame loop runs to its end. *)
Lemma track_loop_run (dets : list (box * (Z * Z))) :
  forall s : DistanceCalculation,
    annotator s <> None -> labelled (args s) dets = true ->
    fst (Py.for_each dets track_step s) = Return tt
    /\ selected_boxes (snd (Py.for_each dets track_step s))
       = fold_left refresh_with dets (selected_boxes s)
    /\ annotator (snd (Py.for_each dets track_step s)) <> None.
Proof.
  induction dets as [|[b [c t]] dets IH]; intros s Han Hl;
    cbn [Py.for_each fold_left].
  - repeat split; assumption.
  - apply labelled_cons in Hl. destruct Hl as [[label Hc] Hl].
    unfold Py.bind. rewrite track_step_run.
    destruct (annotator s) as [an|]; [|contradiction]. rewrite Hc.
    apply IH; [discriminate | exact Hl].
Qed.

(** The selection after a frame step whose classes all have a label. *)
Lemma start_process_selection (im0 : image) (tracks : Tracks) (key : Z)
    (s : DistanceCalculation) :
  labelled (args s) (detections tracks) = true ->
  selected_boxes (snd (start_process im0 tracks key s))
  = fold_left refresh_with (detections tracks) (selected_boxes s).
Proof.
  intros Hl. unfold start_process.
  cbn [Py.bind Py.modify Py.gets].
  rewrite selected_after_bind
    by (intros out; apply stable_display; auto with dc).
  unfold detections in *.
  cbn [trk_ids set_tracks]. destruct (t_ids tracks) as [ts|] eqn:Hts.
  2:{ destruct (t_boxes tracks), (t_clss tracks); reflexivity. }
  unfold annotate_tracks.
  cbn [Py.bind Py.modify Py.gets boxes clss trk_ids set_tracks set_annotator].
  rewrite Hts.
  destruct (t_boxes tracks) as [bs|]; [|reflexivity].
  destruct (t_clss tracks) as [cs|]; [|reflexivity].
  cbn [zip3 Py.ret Py.bind].
  rewrite selected_after_bind.
  2:{ intros ?. stable_step; [apply stable_measure|]. repeat stable_step. }
  match goal with
  | |- selected_boxes (snd (Py.for_each ?d _ ?s0)) = _ =>
      destruct (track_loop_run d s0) as (_ & H & _);
      [discriminate | exact Hl | exact H]
  end.
Qed.

(* ------------------------------------------------------------------ *)
(** ** The secondary click *)

(** C5. A secondary click (right button down) returns, from any prior state
    and at any point, and leaves an empty selection and a click counter of
    zero; nothing else of the object changes. *)
Theorem secondary_click_resets (s : DistanceCalculation) (x y : Z) :
  mouse_event_for_distance EVENT_RBUTTONDOWN x y s
  = (Return tt, set_left_mouse_count 0 (set_selected_boxes [] s))
  /\ selected_boxes (snd (mouse_event_for_distance EVENT_RBUTTONDOWN x y s)) = []
  /\ left_mouse_count (snd (mouse_event_for_distance EVENT_RBUTTONDOWN x y s)) = 0.
Proof. repeat split. Qed.

(* ------------------------------------------------------------------ *)
(** ** The primary click *)

(** C4. A primary click is not total: delivered before the first frame, or
    after a frame in which the tracker reported no track, the handler raises
    [TypeError] at [zip(self.boxes, self.trk_ids)], having already counted the
    click.  [start_process] guards the same values with
    [if self.trk_ids is not None]; the handler does not. *)
Theorem primary_click_without_tracks_raises (a : Args) (env : bool)
    (im0 : image) (key x y : Z) :
  mouse_event_for_distance EVENT_LBUTTONDOWN x y (init a env)
  = (Raise TypeError, set_left_mouse_count 1 (init a env))
  /\ fst (mouse_event_for_distance EVENT_LBUTTONDOWN x y
            (step (Frame im0 no_tracks key) (init a env)))
     = Raise TypeError.
Proof.
  split; [reflexivity|].
  unfold step, start_process.
  cbn [Py.bind Py.modify Py.gets trk_ids set_tracks t_ids no_tracks Py.ret].
  rewrite display_run. reflexivity.
Qed.

(** Once the counter has reached 2 the click loop is skipped. *)
Lemma counted_out_click_selection (s : DistanceCalculation) (x y : Z) :
  2 <= left_mouse_count s ->
  selected_boxes (snd (mouse_event_for_distance EVENT_LBUTTONDOWN x y s))
  = selected_boxes s.
Proof.
  intros H. rewrite primary_click_selection.
  replace (left_mouse_count s + 1 <=? 2) with false; [reflexivity|].
  symmetry. apply Z.leb_gt. lia.
Qed.

(** C3, on the code.  A selection of two does not make the handler ignore a
    primary click: after one click on the overlap of two boxes two tracks are
    selected and the counter is 1, and the next click, inside a third box,
    adds a third track.  The test of line 59 counts clicks, and the loop of
    lines 60-62 took two tracks on one click: the defect of C2. *)
Lemma full_selection_click_counterexample :
  selected_boxes two_by_one_click = [(1, Box 0 0 10 10); (2, Box 2 2 12 12)]
  /\ left_mouse_count two_by_one_click = 1
  /\ selected_boxes
       (snd (mouse_event_for_distance EVENT_LBUTTONDOWN 105 5 two_by_one_click))
     = [(1, Box 0 0 10 10); (2, Box 2 2 12 12); (3, Box 100 0 110 10)]
  /\ ~ (forall (s : DistanceCalculation) (x y : Z),
          len (selected_boxes s) = 2 ->
          selected_boxes (snd (mouse_event_for_distance EVENT_LBUTTONDOWN x y s))
          = selected_boxes s).
Proof.
  split; [reflexivity|]. split; [reflexivity|]. split; [reflexivity|].
  intros H. specialize (H two_by_one_click 105 5 eq_refl).
  vm_compute in H. discriminate H.
Qed.

(** Once the click counter has reached 2 a primary click, at any point and
    over any detections, returns and leaves the selection as it is; only the
    counter moves. *)
Theorem counted_out_click_ignored (s : DistanceCalculation) (x y : Z) :
  2 <= left_mouse_count s ->
  mouse_event_for_distance EVENT_LBUTTONDOWN x y s
  = (Return tt, set_left_mouse_count (left_mouse_count s + 1) s)
  /\ selected_boxes (snd (mouse_event_for_distance EVENT_LBUTTONDOWN x y s))
     = selected_boxes s.
Proof.
  intros H.
  assert (E : (left_mouse_count s + 1 <=? 2) = false) by (apply Z.leb_gt; lia).
  split.
  - unfold mouse_event_for_distance, Py.bind, Py.modify, Py.gets; simpl.
    now rewrite E.
  - now apply counted_out_click_selection.
Qed.

Lemma counted_out_click_ignored_witness :
  2 <= left_mouse_count both_selected
  /\ len (selected_boxes both_selected) = 2
  /\ selected_boxes (snd (mouse_event_for_distance EVENT_LBUTTONDOWN 5 5 both_selected))
     = selected_boxes both_selected.
Proof.
  split; [vm_compute; discriminate|].
  split; [reflexivity|].
  apply (counted_out_click_ignored both_selected 5 5).
  vm_compute; discriminate.
Defined.

(** C10. A primary click adds a track only from a stored detection whose box
    holds the point strictly inside, and the entry it adds is that box; a
    point on the border of a box never adds that box. *)
Theorem click_selects_strictly_inside (s : DistanceCalculation) (x y : Z) :
  (forall (k : Z) (b : box),
      dict_get k (selected_boxes s) = None ->
      dict_get k (selected_boxes (snd (mouse_event_for_distance EVENT_LBUTTONDOWN x y s)))
      = Some b ->
      In (b, k) (click_targets s)
      /\ b0 b < x < b2 b /\ b1 b < y < b3 b)
  /\ (forall (k : Z) (b : box),
        on_border b x y ->
        dict_get k (selected_boxes s) = None ->
        dict_get k (selected_boxes (snd (mouse_event_for_distance EVENT_LBUTTONDOWN x y s)))
        <> Some b).
Proof.
  assert (G : forall k b,
             dict_get k (selected_boxes s) = None ->
             dict_get k (selected_boxes
                           (snd (mouse_event_for_distance EVENT_LBUTTONDOWN x y s)))
             = Some b ->
             In (b, k) (click_targets s) /\ inside b x y = true).
  { intros k b Hnone Hsome. rewrite primary_click_selection in Hsome.
    destruct (left_mouse_count s + 1 <=? 2); [|congruence].
    apply click_fold_origin in Hsome.
    destruct Hsome as [H|(_ & H1 & H2)]; [congruence | auto]. }
  split.
  - intros k b Hnone Hsome. destruct (G k b Hnone Hsome) as [H1 H2].
    apply inside_spec in H2. tauto.
  - intros k b Hb Hnone Hsome. destruct (G k b Hnone Hsome) as [_ H2].
    rewrite (on_border_not_inside Hb) in H2. discriminate.
Qed.

(** A click never replaces the box of a track that is already selected. *)
Lemma click_keeps_selected (s : DistanceCalculation) (x y k : Z) (b : box) :
  dict_get k (selected_boxes s) = Some b ->
  dict_get k (selected_boxes (snd (mouse_event_for_distance EVENT_LBUTTONDOWN x y s)))
  = Some b.
Proof.
  intros H. rewrite primary_click_selection.
  destruct (left_mouse_count s + 1 <=? 2); [|exact H].
  now apply click_fold_keeps.
Qed.

(* ------------------------------------------------------------------ *)
(** ** The per-frame refresh *)

(** C1, as stated: false.  With a single selected track the frame step does
    not take the track's new box: the refresh is guarded by
    [len(self.selected_boxes) == 2]. *)
Lemma refresh_counterexample :
  selected_boxes one_selected = [(1, Box 0 0 10 10)]
  /\ detections one_moved = [(Box 1 1 11 11, (0, 1))]
  /\ selected_boxes (snd (start_process [] one_moved 0 one_selected))
     = [(1, Box 0 0 10 10)]
  /\ ~ (forall (s : DistanceCalculation) (im0 : image) (tracks : Tracks) (key : Z),
          refreshed (selected_boxes s) (detections tracks)
                    (selected_boxes (snd (start_process im0 tracks key s)))).
Proof.
  split; [reflexivity|]. split; [reflexivity|]. split; [reflexivity|].
  intros H.
  specialize (H one_selected [] one_moved 0 1 (Box 0 0 10 10) eq_refl).
  vm_compute in H. discriminate H.
Qed.

(** C1, amended. In a frame step whose classes all have a label: when exactly
    two tracks are selected, every selected track seen in the frame takes the
    frame's box for it and every selected track not seen keeps its box; when
    the number of selected tracks is not two, the selection is left as it is.
    In both cases no entry is removed or added. *)
Theorem frame_refresh (s : DistanceCalculation) (im0 : image) (tracks : Tracks)
    (key : Z) :
  labelled (args s) (detections tracks) = true ->
  (len (selected_boxes s) = 2 ->
   refreshed (selected_boxes s) (detections tracks)
             (selected_boxes (snd (start_process im0 tracks key s))))
  /\ (len (selected_boxes s) <> 2 ->
      selected_boxes (snd (start_process im0 tracks key s)) = selected_boxes s)
  /\ dict_keys (selected_boxes (snd (start_process im0 tracks key s)))
     = dict_keys (selected_boxes s).
Proof.
  intros Hl. destruct (stable_start_process im0 tracks key s) as (K & _ & _ & _ & U).
  repeat split; [|exact U|exact K].
  intros H2. rewrite start_process_selection by exact Hl.
  now apply refresh_fold_get.
Qed.

Lemma frame_refresh_witness :
  labelled (args both_selected) (detections one_moved) = true
  /\ dict_get 1 (selected_boxes (snd (start_process [] one_moved 0 both_selected)))
     = Some (Box 1 1 11 11)
  /\ dict_get 2 (selected_boxes (snd (start_process [] one_moved 0 both_selected)))
     = Some (Box 100 0 110 10).
Proof.
  split; [reflexivity|].
  destruct (frame_refresh both_selected [] one_moved 0 eq_refl) as (R & _ & _).
  split.
  - exact (R eq_refl 1 (Box 0 0 10 10) eq_refl).
  - exact (R eq_refl 2 (Box 100 0 110 10) eq_refl).
Defined.

(* ------------------------------------------------------------------ *)
(** ** Runs of the host loop *)

Lemma run_app (l1 l2 : list input) (s : DistanceCalculation) :
  run (l1 ++ l2) s = run l2 (run l1 s).
Proof. unfold run. apply fold_left_app. Qed.

Lemma keys_nil (d : dict) : dict_keys d = [] -> d = [].
Proof. destruct d; [reflexivity | discriminate]. Qed.

(** C2, on the code. One primary click on a point that three boxes share
    selects the three tracks: the loop of lines 60-62 goes on after a hit and
    the test of line 59 counts clicks, not selected tracks. *)
Theorem one_click_selects_three :
  selected_boxes (run [Frame [] three_overlapping 0; Mouse EVENT_LBUTTONDOWN 5 5]
                      (init sample_args true))
  = [(1, Box 0 0 10 10); (2, Box 2 2 12 12); (3, Box 4 4 14 14)]
  /\ ~ (forall (l : list input) (a : Args) (env : bool),
          len (selected_boxes (run l (init a env))) <= 2).
Proof.
  split; [reflexivity|].
  intros H.
  specialize (H [Frame [] three_overlapping 0; Mouse EVENT_LBUTTONDOWN 5 5]
                sample_args true).
  vm_compute in H. apply H. reflexivity.
Qed.

(** What every delivery keeps when each primary click hits at most one
    target: at most two tracks are selected, never more than clicks counted,
    and the keys are distinct. *)
Lemma single_hit_step (i : input) (s : DistanceCalculation) :
  match i with
  | Mouse event x y => event = EVENT_LBUTTONDOWN -> len (hits x y s) <= 1
  | Frame _ _ _ => True
  end ->
  len (selected_boxes s) <= 2 /\ len (selected_boxes s) <= left_mouse_count s
  /\ NoDup (dict_keys (selected_boxes s)) ->
  len (selected_boxes (step i s)) <= 2
  /\ len (selected_boxes (step i s)) <= left_mouse_count (step i s)
  /\ NoDup (dict_keys (selected_boxes (step i s))).
Proof.
  intros Hhit (H2 & Hc & Hnd). destruct i as [event x y|im0 tracks key]; cbn [step].
  - destruct (Z.eq_dec event EVENT_LBUTTONDOWN) as [->|Hl].
    + rewrite primary_click_selection, primary_click_count.
      specialize (Hhit eq_refl). unfold hits in Hhit.
      destruct (left_mouse_count s + 1 <=? 2) eqn:E.
      * apply Z.leb_le in E.
        pose proof (click_fold_len x y (click_targets s) (selected_boxes s)) as B.
        repeat split; try lia. now apply click_fold_NoDup.
      * repeat split; try lia; assumption.
    + destruct (Z.eq_dec event EVENT_RBUTTONDOWN) as [->|Hr].
      * cbn. repeat split; try lia. constructor.
      * rewrite other_event_ignored by assumption. cbn [snd]. auto.
  - destruct (stable_start_process im0 tracks key s) as (K & C & _).
    assert (L : len (selected_boxes (snd (start_process im0 tracks key s)))
                = len (selected_boxes s)).
    { rewrite <- (len_keys (selected_boxes (snd _))), K. apply len_keys. }
    rewrite L, C, K. auto.
Qed.

(** X1. The invariant of the selection under single hits: from the initial state,
    as long as every primary click lies strictly inside at most one of the
    stored boxes, never more than two tracks are selected. *)
Theorem single_hits_at_most_two (l : list input) (a : Args) (env : bool) :
  single_hits l (init a env) ->
  len (selected_boxes (run l (init a env))) <= 2.
Proof.
  assert (G : forall l s,
             single_hits l s ->
             len (selected_boxes s) <= 2 /\ len (selected_boxes s) <= left_mouse_count s
             /\ NoDup (dict_keys (selected_boxes s)) ->
             len (selected_boxes (run l s)) <= 2).
  { clear. induction l as [|i l IH]; intros s Hs Hinv; simpl in *.
    - tauto.
    - destruct Hs as [Hi Hs]. apply IH; [exact Hs|].
      now apply single_hit_step. }
  intros H. apply G; [exact H|].
  simpl. repeat split; try (unfold len; simpl; lia). constructor.
Qed.

Lemma single_hits_at_most_two_witness :
  single_hits [Frame [] two_apart 0; Mouse EVENT_LBUTTONDOWN 5 5;
               Mouse EVENT_LBUTTONDOWN 105 5; Mouse EVENT_LBUTTONDOWN 5 5]
              (init sample_args true)
  /\ len (selected_boxes
            (run [Frame [] two_apart 0; Mouse EVENT_LBUTTONDOWN 5 5;
                  Mouse EVENT_LBUTTONDOWN 105 5; Mouse EVENT_LBUTTONDOWN 5 5]
                 (init sample_args true))) <= 2.
Proof.
  assert (H : single_hits [Frame [] two_apart 0; Mouse EVENT_LBUTTONDOWN 5 5;
                           Mouse EVENT_LBUTTONDOWN 105 5; Mouse EVENT_LBUTTONDOWN 5 5]
                          (init sample_args true)).
  { simpl. repeat split; intros _; vm_compute; discriminate. }
  split; [exact H | exact (single_hits_at_most_two _ _ _ H)].
Defined.

(** Under single hits the selection never outgrows the click counter. *)
Lemma single_hits_counted (l : list input) :
  forall s : DistanceCalculation,
    single_hits l s ->
    len (selected_boxes s) <= 2 /\ len (selected_boxes s) <= left_mouse_count s
    /\ NoDup (dict_keys (selected_boxes s)) ->
    len (selected_boxes (run l s)) <= left_mouse_count (run l s).
Proof.
  induction l as [|i l IH]; intros s Hs Hinv; cbn [run fold_left single_hits] in *.
  - tauto.
  - destruct Hs as [Hi Hs]. apply IH; [exact Hs|]. now apply single_hit_step.
Qed.

(** Where every primary click so far has hit at most one stored box, a
    selection of two does make the handler ignore a further primary click. *)
Lemma two_selected_click_ignored (l : list input) (a : Args) (env : bool) (x y : Z) :
  single_hits l (init a env) ->
  len (selected_boxes (run l (init a env))) = 2 ->
  selected_boxes
    (snd (mouse_event_for_distance EVENT_LBUTTONDOWN x y (run l (init a env))))
  = selected_boxes (run l (init a env)).
Proof.
  intros Hs H2. apply counted_out_click_selection.
  rewrite <- H2. apply single_hits_counted; [exact Hs|].
  cbn. repeat split; try lia. constructor.
Qed.

(* ------------------------------------------------------------------ *)
(** ** Clicks that hit nothing *)

(** A delivery that presses no button keeps counter and selection ids. *)
Lemma quiet_step (i : input) (s : DistanceCalculation) :
  is_button_down i = false ->
  left_mouse_count (step i s) = left_mouse_count s
  /\ dict_keys (selected_boxes (step i s)) = dict_keys (selected_boxes s).
Proof.
  destruct i as [event x y|im0 tracks key]; cbn [is_button_down step]; intros H.
  - apply orb_false_iff in H. destruct H as [H1 H2].
    apply Z.eqb_neq in H1, H2. rewrite other_event_ignored by assumption. auto.
  - destruct (stable_start_process im0 tracks key s) as (K & C & _). auto.
Qed.

Lemma quiet_run (l : list input) :
  forall s : DistanceCalculation,
    forallb (fun i => negb (is_button_down i)) l = true ->
    left_mouse_count (run l s) = left_mouse_count s
    /\ dict_keys (selected_boxes (run l s)) = dict_keys (selected_boxes s).
Proof.
  induction l as [|i l IH]; intros s H; cbn [run fold_left] in *; [auto|].
  cbn [forallb] in H. apply andb_true_iff in H. destruct H as [Hi Hl].
  apply negb_true_iff in Hi.
  destruct (quiet_step i s Hi) as [C K].
  destruct (IH (step i s) Hl) as [C' K'].
  unfold run in *. split; congruence.
Qed.

(** Past two counted clicks, nothing but a secondary click changes the
    selected ids. *)
Lemma counted_out_step (i : input) (s : DistanceCalculation) :
  2 <= left_mouse_count s -> is_secondary i = false ->
  2 <= left_mouse_count (step i s)
  /\ dict_keys (selected_boxes (step i s)) = dict_keys (selected_boxes s).
Proof.
  intros Hc Hs. destruct i as [event x y|im0 tracks key]; cbn [is_secondary step] in *.
  - destruct (Z.eq_dec event EVENT_LBUTTONDOWN) as [->|Hl].
    + rewrite primary_click_count.
      rewrite (counted_out_click_selection s x y Hc). split; [lia | reflexivity].
    + apply Z.eqb_neq in Hs. rewrite other_event_ignored by assumption. auto.
  - destruct (stable_start_process im0 tracks key s) as (K & C & _).
    split; [lia | exact K].
Qed.

Lemma counted_out_run (l : list input) :
  forall s : DistanceCalculation,
    2 <= left_mouse_count s ->
    forallb (fun i => negb (is_secondary i)) l = true ->
    2 <= left_mouse_count (run l s)
    /\ dict_keys (selected_boxes (run l s)) = dict_keys (selected_boxes s).
Proof.
  induction l as [|i l IH]; intros s Hc H; cbn [run fold_left] in *; [auto|].
  cbn [forallb] in H. apply andb_true_iff in H. destruct H as [Hi Hl].
  apply negb_true_iff in Hi.
  destruct (counted_out_step i s Hc Hi) as [C K].
  destruct (IH (step i s) C Hl) as [C' K'].
  unfold run in *. split; [exact C' | congruence].
Qed.

(** A click that hits nothing leaves the selection as it is. *)
Lemma missed_click (x y : Z) (s : DistanceCalculation) :
  hits x y s = [] ->
  selected_boxes (step (Mouse EVENT_LBUTTONDOWN x y) s) = selected_boxes s.
Proof.
  intros H. cbn [step]. rewrite primary_click_selection.
  destruct (left_mouse_count s + 1 <=? 2); [|reflexivity].
  now apply click_fold_miss.
Qed.

(** C9. Every primary click is counted, whether or not it hits a box (and
    even when the handler raises).  So from an empty selection with a counter
    of zero, after two primary clicks that hit nothing, with frames in
    between, the counter is 2 and the selection is empty, and it stays empty
    through every further delivery of clicks and frames until a secondary
    click. *)
Theorem missed_clicks_block_selection (s : DistanceCalculation)
    (x1 y1 x2 y2 : Z) (mid rest : list input) :
  left_mouse_count s = 0 ->
  selected_boxes s = [] ->
  hits x1 y1 s = [] ->
  forallb (fun i => negb (is_button_down i)) mid = true ->
  hits x2 y2 (run mid (step (Mouse EVENT_LBUTTONDOWN x1 y1) s)) = [] ->
  forallb (fun i => negb (is_secondary i)) rest = true ->
  (forall (s0 : DistanceCalculation) (x y : Z),
      left_mouse_count (step (Mouse EVENT_LBUTTONDOWN x y) s0)
      = left_mouse_count s0 + 1)
  /\ left_mouse_count
       (run (Mouse EVENT_LBUTTONDOWN x1 y1 :: mid ++ [Mouse EVENT_LBUTTONDOWN x2 y2]) s)
     = 2
  /\ selected_boxes
       (run (Mouse EVENT_LBUTTONDOWN x1 y1 :: mid ++ [Mouse EVENT_LBUTTONDOWN x2 y2]) s)
     = []
  /\ selected_boxes
       (run (Mouse EVENT_LBUTTONDOWN x1 y1 :: mid ++ [Mouse EVENT_LBUTTONDOWN x2 y2]
               ++ rest) s)
     = [].
Proof.
  intros Hc He H1 Hmid H2 Hrest.
  split; [intros s0 x y; apply primary_click_count|].
  set (sa := step (Mouse EVENT_LBUTTONDOWN x1 y1) s) in *.
  assert (Ca : left_mouse_count sa = 1)
    by (unfold sa; cbn [step]; rewrite primary_click_count; lia).
  assert (Ea : selected_boxes sa = [])
    by (unfold sa; rewrite missed_click; assumption).
  destruct (quiet_run mid sa Hmid) as [Cb Kb].
  set (sb := run mid sa) in *.
  assert (Eb : selected_boxes sb = [])
    by (apply keys_nil; rewrite Kb, Ea; reflexivity).
  set (sc := step (Mouse EVENT_LBUTTONDOWN x2 y2) sb).
  assert (Cc : left_mouse_count sc = 2)
    by (unfold sc; cbn [step]; rewrite primary_click_count; lia).
  assert (Ec : selected_boxes sc = [])
    by (unfold sc; rewrite missed_click; assumption).
  assert (R2 : run (Mouse EVENT_LBUTTONDOWN x1 y1 :: mid ++ [Mouse EVENT_LBUTTONDOWN x2 y2]) s
               = sc).
  { change (run (mid ++ [Mouse EVENT_LBUTTONDOWN x2 y2]) sa = sc).
    rewrite run_app. reflexivity. }
  assert (R3 : run (Mouse EVENT_LBUTTONDOWN x1 y1 :: mid
                      ++ [Mouse EVENT_LBUTTONDOWN x2 y2] ++ rest) s
               = run rest sc).
  { change (run (mid ++ [Mouse EVENT_LBUTTONDOWN x2 y2] ++ rest) sa = run rest sc).
    rewrite !run_app. reflexivity. }
  rewrite R2, R3. repeat split; try assumption.
  destruct (counted_out_run rest sc) as [_ K]; [lia | exact Hrest |].
  apply keys_nil. rewrite K, Ec. reflexivity.
Qed.

(** A run on the sample data: two clicks beside the boxes, a frame in
    between, then a click right inside the first box, which selects nothing. *)
Lemma missed_clicks_block_selection_witness :
  left_mouse_count (step (Frame [] two_apart 0) (init sample_args true)) = 0
  /\ hits 5 5 (step (Frame [] two_apart 0) (init sample_args true)) <> []
  /\ selected_boxes
       (run (Mouse EVENT_LBUTTONDOWN 50 50 :: [Frame [] two_apart 0]
               ++ [Mouse EVENT_LBUTTONDOWN 50 5]
               ++ [Mouse EVENT_LBUTTONDOWN 5 5; Frame [] two_apart 0])
            (step (Frame [] two_apart 0) (init sample_args true)))
     = [].
Proof.
  split; [reflexivity|]. split; [vm_compute; discriminate|].
  apply (missed_clicks_block_selection
           (step (Frame [] two_apart 0) (init sample_args true))
           50 50 50 5 [Frame [] two_apart 0]
           [Mouse EVENT_LBUTTONDOWN 5 5; Frame [] two_apart 0]);
    reflexivity.
Defined.

(* ------------------------------------------------------------------ *)
(** ** The distance estimate *)

(** The conversion limit is where rounding first leaves the finite range. *)
Example float_int_limit_sharp :
  PrimFloat.is_infinity (Z2float float_int_limit) = true
  /\ PrimFloat.is_infinity (Z2float (float_int_limit - 1)) = false.
Proof. split; vm_compute; reflexivity. Qed.

(** The conversion is exact on small integers and rounds ties to even. *)
Example Z2float_rounds :
  Z2float 10000 = 10000%float
  /\ Z2float (2 ^ 53 + 1) = Z2float (2 ^ 53)
  /\ Z2float (2 ^ 53 + 3) = Z2float (2 ^ 53 + 4)
  /\ Z2float (-7) = (-7)%float.
Proof. repeat split; vm_compute; reflexivity. Qed.

(** A 3-4-5 triangle at one pixel per metre. *)
Example calculate_distance_3_4_5 :
  fst (calculate_distance (0, 0) (3, 4)
         (init (mkArgs 1%float 2 (0, 0, 0) (0, 0, 0) [] false "w"%string) false))
  = Return (5%float, 5000%float).
Proof. vm_compute. reflexivity. Qed.

(** A calibration of zero raises. *)
Example calculate_distance_zero_calibration :
  fst (calculate_distance (0, 0) (3, 4)
         (init (mkArgs 0%float 2 (0, 0, 0) (0, 0, 0) [] false "w"%string) false))
  = Raise ZeroDivisionError.
Proof. vm_compute. reflexivity. Qed.

Lemma squared_distance_nonneg (c1 c2 : point) :
  0 <= (fst c1 - fst c2) ^ 2 + (snd c1 - snd c2) ^ 2.
Proof. rewrite !Z.pow_2_r. apply Z.add_nonneg_nonneg; apply Z.square_nonneg. Qed.

Lemma squared_distance_sym (c1 c2 : point) :
  (fst c1 - fst c2) ^ 2 + (snd c1 - snd c2) ^ 2
  = (fst c2 - fst c1) ^ 2 + (snd c2 - snd c1) ^ 2.
Proof. ring. Qed.

Lemma math_sqrt_run (n : Z) :
  0 <= n < float_int_limit -> math_sqrt n = Return (PrimFloat.sqrt (Z2float n)).
Proof.
  intros [H0 H1]. unfold math_sqrt, float_of_int.
  rewrite Z.abs_eq by exact H0.
  apply Z.ltb_lt in H1. rewrite H1.
  replace (n <? 0) with false; [reflexivity|].
  symmetry. apply Z.ltb_ge. exact H0.
Qed.

Lemma square_bound (d m : Z) : Z.abs d <= m -> d ^ 2 <= m ^ 2.
Proof.
  intros H. rewrite (Z.pow_even_abs d 2) by (exists 1; reflexivity).
  apply Z.pow_le_mono_l. split; [apply Z.abs_nonneg | exact H].
Qed.

(** Coordinates of 32 bits are far inside the conversion range. *)
Lemma pixel_range_converts (c1 c2 : point) :
  Z.abs (fst c1) <= 2 ^ 32 -> Z.abs (snd c1) <= 2 ^ 32 ->
  Z.abs (fst c2) <= 2 ^ 32 -> Z.abs (snd c2) <= 2 ^ 32 ->
  (fst c1 - fst c2) ^ 2 + (snd c1 - snd c2) ^ 2 < float_int_limit.
Proof.
  intros H1 H2 H3 H4.
  assert (L : (2 ^ 33) ^ 2 + (2 ^ 33) ^ 2 < float_int_limit)
    by (vm_compute; reflexivity).
  change (2 ^ 32) with 4294967296 in *.
  assert (A : (fst c1 - fst c2) ^ 2 <= (2 ^ 33) ^ 2)
    by (apply square_bound; change (2 ^ 33) with 8589934592; lia).
  assert (B : (snd c1 - snd c2) ^ 2 <= (2 ^ 33) ^ 2)
    by (apply square_bound; change (2 ^ 33) with 8589934592; lia).
  lia.
Qed.

(** C6. With a calibration other than zero and a squared pixel distance in
    the range of the integer to float conversion, [calculate_distance]
    returns the pair [(d / c, (d / c) * 1000)], where [d] is the square root
    of [(x1 - x2)^2 + (y1 - y2)^2] and [c] is [pixels_per_meter]; the
    operations are those of binary64.  The object is left as it is. *)
Theorem calculate_distance_formula (s : DistanceCalculation) (c1 c2 : point) :
  (fst c1 - fst c2) ^ 2 + (snd c1 - snd c2) ^ 2 < float_int_limit ->
  (pixels_per_meter (args s) =? 0)%float = false ->
  calculate_distance c1 c2 s
  = (Return ((PrimFloat.sqrt (Z2float ((fst c1 - fst c2) ^ 2 + (snd c1 - snd c2) ^ 2))
              / pixels_per_meter (args s))%float,
             (PrimFloat.sqrt (Z2float ((fst c1 - fst c2) ^ 2 + (snd c1 - snd c2) ^ 2))
              / pixels_per_meter (args s) * 1000)%float),
     s).
Proof.
  intros Hn Hc. unfold calculate_distance, Py.bind, Py.lift, Py.gets, Py.ret.
  rewrite math_sqrt_run by (split; [apply squared_distance_nonneg | exact Hn]).
  unfold truediv. rewrite Hc. reflexivity.
Qed.

Lemma calculate_distance_formula_witness :
  (fst (5, 5) - fst (105, 5)) ^ 2 + (snd (5, 5) - snd (105, 5)) ^ 2 < float_int_limit
  /\ (pixels_per_meter (args both_selected) =? 0)%float = false
  /\ calculate_distance (5, 5) (105, 5) both_selected
     = (Return (10%float, 10000%float), both_selected).
Proof.
  split; [vm_compute; reflexivity|]. split; [vm_compute; reflexivity|].
  rewrite (calculate_distance_formula both_selected (5, 5) (105, 5));
    vm_compute; reflexivity.
Defined.

(** C7. [calculate_distance] gives the same answer for [(a, b)] and
    [(b, a)], for every calibration: the same pair of distances, or the same
    exception. *)
Theorem calculate_distance_symmetric (s : DistanceCalculation) (a b : point) :
  calculate_distance a b s = calculate_distance b a s.
Proof.
  unfold calculate_distance. now rewrite (squared_distance_sym a b).
Qed.

(* ------------------------------------------------------------------ *)
(** ** The two-object scenario *)

(** A counted primary click over stored detections, in closed form. *)
Lemma primary_click_run (x y : Z) (s : DistanceCalculation)
    (bs : list box) (ts : list Z) :
  boxes s = Some bs -> trk_ids s = Some ts -> left_mouse_count s + 1 <= 2 ->
  mouse_event_for_distance EVENT_LBUTTONDOWN x y s
  = (Return tt,
     set_selected_boxes
       (fold_left (click_add x y) (combine bs ts) (selected_boxes s))
       (set_left_mouse_count (left_mouse_count s + 1) s)).
Proof.
  intros Hb Ht Hc.
  unfold mouse_event_for_distance, Py.bind, Py.modify, Py.gets; simpl.
  apply Z.leb_le in Hc. rewrite Hc.
  cbn [boxes trk_ids set_left_mouse_count]. rewrite Hb, Ht; simpl.
  now rewrite click_loop_run.
Qed.

Lemma sqrt_of_10000 : math_sqrt ((5 - 105) ^ 2 + (5 - 5) ^ 2) = Return 100%float.
Proof. vm_compute. reflexivity. Qed.

Lemma hundred_by_ten : truediv 100 10 = Return 10%float.
Proof. vm_compute. reflexivity. Qed.

Lemma ten_in_mm : (10 * 1000)%float = 10000%float.
Proof. vm_compute. reflexivity. Qed.

Lemma distance_100_px (s : DistanceCalculation) :
  pixels_per_meter (args s) = 10%float ->
  calculate_distance (5, 5) (105, 5) s = (Return (10%float, 10000%float), s).
Proof.
  intros H. unfold calculate_distance, Py.bind, Py.lift, Py.gets, Py.ret.
  cbn [fst snd]. rewrite sqrt_of_10000, H, hundred_by_ten, ten_in_mm. reflexivity.
Qed.

Lemma then_display (m : M image) (key : Z) (s : DistanceCalculation) :
  returns (fst (Py.bind m (fun out => display out key) s)) = returns (fst (m s))
  /\ snd (Py.bind m (fun out => display out key) s) = snd (m s).
Proof.
  unfold Py.bind. destruct (m s) as [[out|e] s']; [|split; reflexivity].
  rewrite display_run. split; reflexivity.
Qed.

Lemma distance_100_px_back (s : DistanceCalculation) :
  pixels_per_meter (args s) = 10%float ->
  calculate_distance (105, 5) (5, 5) s = (Return (10%float, 10000%float), s).
Proof.
  intros H. unfold calculate_distance.
  rewrite (squared_distance_sym (105, 5) (5, 5)).
  now apply distance_100_px.
Qed.

(** Runs a frame step over the two detections on an explicit object: [Ha] and
    [Hb] are the labels of the two classes, [Hd] the distance of the two
    centroids. *)
Ltac run_two_apart_frame key Ha Hb Hd :=
  unfold start_process; cbn [Py.bind Py.modify Py.gets trk_ids set_tracks t_ids];
  match goal with
  | |- returns (fst (Py.bind ?m _ ?s0)) = _ /\ _ =>
      destruct (then_display m key s0) as [-> ->]
  end;
  unfold annotate_tracks;
  cbn [Py.bind Py.modify Py.gets Py.ret boxes clss trk_ids set_tracks set_annotator
       t_boxes t_clss t_ids zip3 combine Py.for_each args];
  unfold Py.bind;
  rewrite track_step_run; cbn [args names set_tracks set_annotator annotator];
  rewrite Ha;
  rewrite track_step_run;
  cbn [args names set_tracks set_annotator annotator set_selected_boxes];
  rewrite Hb;
  cbn [Py.ret];
  unfold measure, Py.bind, Py.gets;
  cbn -[calculate_distance];
  rewrite Hd by assumption;
  cbn; split; [reflexivity|];
  now rewrite <- !app_assoc.

(** The frame step once both objects are selected, in either order. *)
Lemma frame_with_both (s : DistanceCalculation) (im1 : image) (k1 ca cb : Z)
    (la lb : string) :
  pixels_per_meter (args s) = 10%float ->
  names_get ca (names (args s)) = Some la ->
  names_get cb (names (args s)) = Some lb ->
  selected_boxes s = [(1, Box 0 0 10 10); (2, Box 100 0 110 10)] ->
  let r := start_process im1
             (mkTracks (Some [Box 0 0 10 10; Box 100 0 110 10])
                       (Some [ca; cb]) (Some [1; 2])) k1 s in
  returns (fst r) = true
  /\ annotator (snd r)
     = Some (mkAnnotator
               (im1 ++ [box_label (Box 0 0 10 10) ca la;
                        box_label (Box 100 0 110 10) cb lb;
                        plot_distance_and_line 10 10000 [(5, 5); (105, 5)]
                          (line_color (args s)) (centroid_color (args s))])
               (line_thickness (args s))).
Proof.
  intros Hp Ha Hb Hsel.
  destruct s as [a an cl bx ti ce lm sel ev]. cbn [args selected_boxes] in *.
  subst sel. cbv zeta.
  run_two_apart_frame k1 Ha Hb distance_100_px.
Qed.

Lemma frame_with_both_back (s : DistanceCalculation) (im1 : image) (k1 ca cb : Z)
    (la lb : string) :
  pixels_per_meter (args s) = 10%float ->
  names_get ca (names (args s)) = Some la ->
  names_get cb (names (args s)) = Some lb ->
  selected_boxes s = [(2, Box 100 0 110 10); (1, Box 0 0 10 10)] ->
  let r := start_process im1
             (mkTracks (Some [Box 0 0 10 10; Box 100 0 110 10])
                       (Some [ca; cb]) (Some [1; 2])) k1 s in
  returns (fst r) = true
  /\ annotator (snd r)
     = Some (mkAnnotator
               (im1 ++ [box_label (Box 0 0 10 10) ca la;
                        box_label (Box 100 0 110 10) cb lb;
                        plot_distance_and_line 10 10000 [(105, 5); (5, 5)]
                          (line_color (args s)) (centroid_color (args s))])
               (line_thickness (args s))).
Proof.
  intros Hp Ha Hb Hsel.
  destruct s as [a an cl bx ti ce lm sel ev]. cbn [args selected_boxes] in *.
  subst sel. cbv zeta.
  run_two_apart_frame k1 Ha Hb distance_100_px_back.
Qed.

Lemma inside_first_box (x y : Z) :
  0 < x < 10 -> 0 < y < 10 ->
  inside (Box 0 0 10 10) x y = true /\ inside (Box 100 0 110 10) x y = false.
Proof.
  intros Hx Hy. split.
  - apply inside_spec. cbn. lia.
  - destruct (inside (Box 100 0 110 10) x y) eqn:E; [|reflexivity].
    apply inside_spec in E. cbn in E. lia.
Qed.

Lemma inside_second_box (x y : Z) :
  100 < x < 110 -> 0 < y < 10 ->
  inside (Box 0 0 10 10) x y = false /\ inside (Box 100 0 110 10) x y = true.
Proof.
  intros Hx Hy. split.
  - destruct (inside (Box 0 0 10 10) x y) eqn:E; [|reflexivity].
    apply inside_spec in E. cbn in E. lia.
  - apply inside_spec. cbn. lia.
Qed.

(** C8. Detections: track 1 in box (0, 0, 10, 10) and track 2 in box
    (100, 0, 110, 10); calibration: 10 pixels per metre; every class has a
    label.  After a first frame, a primary click strictly inside the first
    box and one strictly inside the second select the two tracks, and the next
    frame step returns, having asked the annotator for the line between the
    centroids (5, 5) and (105, 5) with the distances 10 (metres) and 10000
    (millimetres), in binary64 exactly.  The pixel distance is 100. *)
Theorem two_objects_ten_metres (a : Args) (env : bool) (im0 im1 : image)
    (k0 k1 ca cb : Z) (la lb : string) (xa ya xb yb : Z) :
  pixels_per_meter a = 10%float ->
  names_get ca (names a) = Some la ->
  names_get cb (names a) = Some lb ->
  0 < xa < 10 -> 0 < ya < 10 ->
  100 < xb < 110 -> 0 < yb < 10 ->
  let tracks := mkTracks (Some [Box 0 0 10 10; Box 100 0 110 10])
                         (Some [ca; cb]) (Some [1; 2]) in
  let s3 := run [Frame im0 tracks k0; Mouse EVENT_LBUTTONDOWN xa ya;
                 Mouse EVENT_LBUTTONDOWN xb yb] (init a env) in
  selected_boxes s3 = [(1, Box 0 0 10 10); (2, Box 100 0 110 10)]
  /\ returns (fst (start_process im1 tracks k1 s3)) = true
  /\ annotator (snd (start_process im1 tracks k1 s3))
     = Some (mkAnnotator
               (im1 ++ [box_label (Box 0 0 10 10) ca la;
                        box_label (Box 100 0 110 10) cb lb;
                        plot_distance_and_line 10 10000 [(5, 5); (105, 5)]
                          (line_color a) (centroid_color a)])
               (line_thickness a))
  /\ math_sqrt ((5 - 105) ^ 2 + (5 - 5) ^ 2) = Return 100%float
  /\ calculate_distance (5, 5) (105, 5) s3 = (Return (10%float, 10000%float), s3).
Proof.
  intros Hp Ha Hb Hxa Hya Hxb Hyb tracks. cbv zeta.
  unfold run. cbn [fold_left].
  destruct (stable_start_process im0 tracks k0 (init a env)) as (_ & C1 & A1 & _ & U1).
  destruct (start_process_stores im0 tracks k0 (init a env)) as (B1 & _ & T1).
  change (snd (start_process im0 tracks k0 (init a env)))
    with (step (Frame im0 tracks k0) (init a env)) in *.
  set (s1 := step (Frame im0 tracks k0) (init a env)) in *.
  assert (S1 : selected_boxes s1 = []) by (apply U1; discriminate).
  cbn [left_mouse_count args init t_boxes t_ids tracks] in C1, A1, B1, T1.
  destruct (inside_first_box Hxa Hya) as [I1 I2].
  destruct (inside_second_box Hxb Hyb) as [J1 J2].
  assert (E2 : step (Mouse EVENT_LBUTTONDOWN xa ya) s1
               = set_selected_boxes [(1, Box 0 0 10 10)]
                   (set_left_mouse_count 1 s1)).
  { cbn [step]. rewrite (primary_click_run xa ya s1 B1 T1) by lia.
    cbn [snd]. rewrite S1, C1. cbn [fold_left combine]. unfold click_add.
    cbn [fst snd]. rewrite I1, I2. reflexivity. }
  rewrite E2. set (s2 := set_selected_boxes _ (set_left_mouse_count 1 s1)).
  assert (E3 : step (Mouse EVENT_LBUTTONDOWN xb yb) s2
               = set_selected_boxes [(1, Box 0 0 10 10); (2, Box 100 0 110 10)]
                   (set_left_mouse_count 2 s2)).
  { cbn [step]. rewrite (primary_click_run xb yb s2 B1 T1) by (cbn; lia).
    cbn [snd].
    change (selected_boxes s2) with [(1, Box 0 0 10 10)].
    change (left_mouse_count s2) with 1.
    cbn [fold_left combine]. unfold click_add. cbn [fst snd]. rewrite J1, J2. reflexivity. }
  rewrite E3. set (s3 := set_selected_boxes _ (set_left_mouse_count 2 s2)).
  assert (A3 : args s3 = a) by exact A1.
  split; [reflexivity|].
  destruct (@frame_with_both s3 im1 k1 ca cb la lb) as [R An];
    rewrite ?A3; try assumption; try reflexivity.
  rewrite A3 in An.
  split; [exact R|]. split; [exact An|]. split; [apply sqrt_of_10000|].
  apply distance_100_px. now rewrite A3.
Qed.

Lemma two_objects_ten_metres_witness :
  pixels_per_meter sample_args = 10%float
  /\ names_get 0 (names sample_args) = Some "person"%string
  /\ names_get 1 (names sample_args) = Some "car"%string
  /\ selected_boxes both_selected = [(1, Box 0 0 10 10); (2, Box 100 0 110 10)]
  /\ returns (fst (start_process [] two_apart 0 both_selected)) = true
  /\ annotator (snd (start_process [] two_apart 0 both_selected))
     = Some (mkAnnotator
               [box_label (Box 0 0 10 10) 0 "person"%string;
                box_label (Box 100 0 110 10) 1 "car"%string;
                plot_distance_and_line 10 10000 [(5, 5); (105, 5)]
                  (255, 0, 255) (0, 255, 0)]
               2).
Proof.
  destruct (@two_objects_ten_metres sample_args true [] [] 0 0 0 1
              "person"%string "car"%string 5 5 105 5)
    as (S & R & An & _); try reflexivity; try lia.
  split; [reflexivity|]. split; [reflexivity|]. split; [reflexivity|].
  split; [exact S|]. split; [exact R | exact An].
Defined.

(** The same scenario with the second box clicked first: the selection, and
    so the list of centroids, is in click order; the distances are the same. *)
Lemma two_objects_ten_metres_other_order (a : Args) (env : bool) (im0 im1 : image)
    (k0 k1 ca cb : Z) (la lb : string) (xa ya xb yb : Z) :
  pixels_per_meter a = 10%float ->
  names_get ca (names a) = Some la ->
  names_get cb (names a) = Some lb ->
  0 < xa < 10 -> 0 < ya < 10 ->
  100 < xb < 110 -> 0 < yb < 10 ->
  let tracks := mkTracks (Some [Box 0 0 10 10; Box 100 0 110 10])
                         (Some [ca; cb]) (Some [1; 2]) in
  let s3 := run [Frame im0 tracks k0; Mouse EVENT_LBUTTONDOWN xb yb;
                 Mouse EVENT_LBUTTONDOWN xa ya] (init a env) in
  selected_boxes s3 = [(2, Box 100 0 110 10); (1, Box 0 0 10 10)]
  /\ returns (fst (start_process im1 tracks k1 s3)) = true
  /\ annotator (snd (start_process im1 tracks k1 s3))
     = Some (mkAnnotator
               (im1 ++ [box_label (Box 0 0 10 10) ca la;
                        box_label (Box 100 0 110 10) cb lb;
                        plot_distance_and_line 10 10000 [(105, 5); (5, 5)]
                          (line_color a) (centroid_color a)])
               (line_thickness a)).
Proof.
  intros Hp Ha Hb Hxa Hya Hxb Hyb tracks. cbv zeta.
  unfold run. cbn [fold_left].
  destruct (stable_start_process im0 tracks k0 (init a env)) as (_ & C1 & A1 & _ & U1).
  destruct (start_process_stores im0 tracks k0 (init a env)) as (B1 & _ & T1).
  change (snd (start_process im0 tracks k0 (init a env)))
    with (step (Frame im0 tracks k0) (init a env)) in *.
  set (s1 := step (Frame im0 tracks k0) (init a env)) in *.
  assert (S1 : selected_boxes s1 = []) by (apply U1; discriminate).
  cbn [left_mouse_count args init t_boxes t_ids tracks] in C1, A1, B1, T1.
  destruct (inside_first_box Hxa Hya) as [I1 I2].
  destruct (inside_second_box Hxb Hyb) as [J1 J2].
  assert (E2 : step (Mouse EVENT_LBUTTONDOWN xb yb) s1
               = set_selected_boxes [(2, Box 100 0 110 10)]
                   (set_left_mouse_count 1 s1)).
  { cbn [step]. rewrite (primary_click_run xb yb s1 B1 T1) by lia.
    cbn [snd]. rewrite S1, C1. cbn [fold_left combine]. unfold click_add.
    cbn [fst snd]. rewrite J1, J2. reflexivity. }
  rewrite E2. set (s2 := set_selected_boxes _ (set_left_mouse_count 1 s1)).
  assert (E3 : step (Mouse EVENT_LBUTTONDOWN xa ya) s2
               = set_selected_boxes [(2, Box 100 0 110 10); (1, Box 0 0 10 10)]
                   (set_left_mouse_count 2 s2)).
  { cbn [step]. rewrite (primary_click_run xa ya s2 B1 T1) by (cbn; lia).
    cbn [snd].
    change (selected_boxes s2) with [(2, Box 100 0 110 10)].
    change (left_mouse_count s2) with 1.
    cbn [fold_left combine]. unfold click_add.
    cbn [fst snd]. rewrite I1, I2. reflexivity. }
  rewrite E3. set (s3 := set_selected_boxes _ (set_left_mouse_count 2 s2)).
  assert (A3 : args s3 = a) by exact A1.
  split; [reflexivity|].
  destruct (@frame_with_both_back s3 im1 k1 ca cb la lb) as [R An];
    rewrite ?A3; try assumption; try reflexivity.
  rewrite A3 in An. split; [exact R | exact An].
Qed.

(* ------------------------------------------------------------------ *)
(** ** Further properties of the click handler *)

Lemma dict_set_absent (k : Z) (v : box) (d : dict) :
  dict_contains k d = false -> dict_set k v d = d ++ [(k, v)].
Proof.
  unfold dict_contains.
  induction d as [|[k' v'] d IH]; simpl; [reflexivity|].
  destruct (k' =? k); [discriminate|]. intros H. now rewrite IH.
Qed.

Lemma click_fold_appends (x y : Z) (pairs : list (box * Z)) :
  forall d : dict,
    exists added,
      fold_left (click_add x y) pairs d = d ++ added
      /\ len added <= len (filter (fun bt => inside (fst bt) x y) pairs)
      /\ forall k b, In (k, b) added ->
           In (b, k) pairs /\ inside b x y = true /\ dict_get k d = None.
Proof.
  induction pairs as [|[b t] pairs IH]; intros d; cbn [fold_left filter].
  - exists []. rewrite app_nil_r. split; [reflexivity|].
    split; [vm_compute; discriminate | intros k b []].
  - unfold click_add at 2. cbn [fst snd].
    destruct (inside b x y) eqn:Hin; cbn [andb].
    + destruct (dict_contains t d) eqn:Hc; cbn [negb].
      * destruct (IH d) as (added & E & L & O). exists added.
        split; [exact E|]. split; [rewrite len_cons; lia|].
        intros k b' Hk. destruct (O k b' Hk) as (O1 & O2 & O3).
        repeat split; [now right | exact O2 | exact O3].
      * destruct (IH (dict_set t b d)) as (added & E & L & O).
        rewrite (@dict_set_absent t b d Hc) in E, O |- *.
        exists ((t, b) :: added). split; [now rewrite E, <- app_assoc|].
        split; [rewrite !len_cons; lia|].
        intros k b' [Hk|Hk].
        -- injection Hk as <- <-. repeat split; [now left | exact Hin |].
           unfold dict_contains in Hc. now destruct (dict_get t d).
        -- destruct (O k b' Hk) as (O1 & O2 & O3).
           repeat split; [now right | exact O2 |].
           destruct (dict_get k d) as [old|] eqn:G; [|reflexivity].
           assert (G' : dict_get k (d ++ [(t, b)]) = Some old).
           { clear -G. induction d as [|[k0 v0] d IHd]; simpl in *; [discriminate|].
             destruct (k0 =? k); [exact G | now apply IHd]. }
           congruence.
    + destruct (IH d) as (added & E & L & O). exists added.
      split; [exact E|]. split; [exact L|].
      intros k b' Hk. destruct (O k b' Hk) as (O1 & O2 & O3).
      repeat split; [now right | exact O2 | exact O3].
Qed.

(** X2. A primary click only appends to the selection: the entries that were
    there stay, in their order and with their boxes, and what is added comes
    from stored boxes that hold the point strictly inside, tracks not selected
    before, at most one entry per box hit. *)
Theorem primary_click_appends (s : DistanceCalculation) (x y : Z) :
  exists added,
    selected_boxes (snd (mouse_event_for_distance EVENT_LBUTTONDOWN x y s))
    = selected_boxes s ++ added
    /\ len added <= len (hits x y s)
    /\ forall k b, In (k, b) added ->
         In (b, k) (click_targets s) /\ inside b x y = true
         /\ dict_get k (selected_boxes s) = None.
Proof.
  rewrite primary_click_selection. unfold hits.
  destruct (left_mouse_count s + 1 <=? 2).
  - apply click_fold_appends.
  - exists []. rewrite app_nil_r. split; [reflexivity|].
    split; [|intros k b []].
    change (len (@nil (Z * box))) with 0. unfold len. lia.
Qed.

Lemma click_fold_selects (x y k : Z) (pairs : list (box * Z)) :
  forall d : dict,
    dict_get k (fold_left (click_add x y) pairs d)
    = match dict_get k d with
      | Some b => Some b
      | None =>
          match find (fun bt => (snd bt =? k) && inside (fst bt) x y) pairs with
          | Some bt => Some (fst bt)
          | None => None
          end
      end.
Proof.
  induction pairs as [|[b t] pairs IH]; intros d; cbn [fold_left find].
  - now destruct (dict_get k d).
  - rewrite IH. unfold click_add. cbn [fst snd].
    destruct (dict_get k d) as [v|] eqn:G.
    + destruct (inside b x y && negb (dict_contains t d)) eqn:C; [|now rewrite G].
      apply andb_true_iff in C. destruct C as [_ C]. apply negb_true_iff in C.
      unfold dict_contains in C.
      rewrite dict_get_set_other; [now rewrite G|].
      intros ->. rewrite G in C. discriminate.
    + destruct (Z.eq_dec t k) as [->|Hne].
      * rewrite Z.eqb_refl. cbn [andb]. unfold dict_contains. rewrite G. cbn [negb].
        rewrite andb_true_r.
        destruct (inside b x y); [now rewrite dict_get_set_same | now rewrite G].
      * assert (E : (t =? k) = false) by now apply Z.eqb_neq.
        rewrite E. cbn [andb].
        destruct (inside b x y && negb (dict_contains t d)).
        -- rewrite dict_get_set_other by exact Hne. now rewrite G.
        -- now rewrite G.
Qed.

(** X3. A counted primary click (the first or second since the last reset)
    over stored detections selects what it points at: a track already
    selected keeps its box, and a track not yet selected takes the box of its
    first stored detection that holds the point strictly inside, or stays
    unselected when there is none. *)
Theorem counted_click_selects (s : DistanceCalculation) (x y k : Z)
    (bs : list box) (ts : list Z) :
  boxes s = Some bs -> trk_ids s = Some ts -> left_mouse_count s + 1 <= 2 ->
  dict_get k (selected_boxes (snd (mouse_event_for_distance EVENT_LBUTTONDOWN x y s)))
  = match dict_get k (selected_boxes s) with
    | Some b => Some b
    | None => match first_hit k x y s with
              | Some bt => Some (fst bt)
              | None => None
              end
    end.
Proof.
  intros Hb Ht Hc. rewrite primary_click_selection.
  apply Z.leb_le in Hc. rewrite Hc. apply click_fold_selects.
Qed.

Lemma counted_click_selects_witness :
  boxes one_selected = Some [Box 0 0 10 10; Box 100 0 110 10]
  /\ trk_ids one_selected = Some [1; 2]
  /\ left_mouse_count one_selected + 1 <= 2
  /\ dict_get 2 (selected_boxes
                   (snd (mouse_event_for_distance EVENT_LBUTTONDOWN 105 5 one_selected)))
     = Some (Box 100 0 110 10).
Proof.
  split; [reflexivity|]. split; [reflexivity|].
  split; [vm_compute; discriminate|].
  rewrite (@counted_click_selects one_selected 105 5 2
             [Box 0 0 10 10; Box 100 0 110 10] [1; 2]);
    [reflexivity | reflexivity | reflexivity | vm_compute; discriminate].
Defined.

Lemma mouse_event_fields (event x y : Z) (s : DistanceCalculation) :
  let s' := snd (mouse_event_for_distance event x y s) in
  args s' = args s /\ annotator s' = annotator s /\ clss s' = clss s
  /\ boxes s' = boxes s /\ trk_ids s' = trk_ids s
  /\ centroids s' = centroids s /\ env_check s' = env_check s.
Proof.
  cbv zeta.
  assert (G : stable (fun s s' => args s' = args s /\ annotator s' = annotator s
                                  /\ clss s' = clss s /\ boxes s' = boxes s
                                  /\ trk_ids s' = trk_ids s
                                  /\ centroids s' = centroids s
                                  /\ env_check s' = env_check s)
                     (mouse_event_for_distance event x y)).
  { set (R := fun s s' : DistanceCalculation => _).
    assert (Rr : forall s, R s s) by (intros ?; repeat split).
    assert (Rt : forall s1 s2 s3, R s1 s2 -> R s2 s3 -> R s1 s3).
    { unfold R. intros s1 s2 s3 (A1 & B1 & C1 & D1 & E1 & F1 & G1)
                                (A2 & B2 & C2 & D2 & E2 & F2 & G2).
      repeat split; congruence. }
    assert (Rm : forall f, (forall s, R s (f s)) -> stable R (Py.modify f))
      by (intros f; apply stable_modify).
    unfold mouse_event_for_distance.
    destruct (event =? EVENT_LBUTTONDOWN).
    - apply stable_bind; [exact Rt | apply Rm; intros ?; repeat split |].
      intros _. apply stable_bind; [exact Rt | apply stable_gets; exact Rr |].
      intros n. destruct (n <=? 2); [|apply stable_ret; exact Rr].
      apply stable_bind; [exact Rt | apply stable_gets; exact Rr |]. intros bs.
      apply stable_bind; [exact Rt | apply stable_gets; exact Rr |]. intros ts.
      apply stable_bind; [exact Rt | |].
      + unfold zip2. destruct bs, ts; first [apply stable_ret | apply stable_raise];
          exact Rr.
      + intros pairs. apply stable_for_each; [exact Rr | exact Rt |].
        intros [b t]. unfold select_hit.
        apply stable_bind; [exact Rt | apply stable_gets; exact Rr |]. intros sel.
        destruct (inside b x y && negb (dict_contains t sel));
          [apply Rm; intros ?; repeat split | apply stable_ret; exact Rr].
    - destruct (event =? EVENT_RBUTTONDOWN); [|apply stable_ret; exact Rr].
      apply stable_bind; [exact Rt | apply Rm; intros ?; repeat split |].
      intros _. apply Rm; intros ?; repeat split. }
  exact (G s).
Qed.

(** X4. The mouse callback, for every event and whether it returns or raises,
    changes nothing of the object but the click counter and the selection:
    the configuration, the stored detections, the annotator and the centroid
    buffer stay as they are. *)
Theorem mouse_event_touches_only_selection (event x y : Z) (s : DistanceCalculation) :
  exists (n : Z) (d : dict),
    snd (mouse_event_for_distance event x y s)
    = set_selected_boxes d (set_left_mouse_count n s).
Proof.
  destruct (mouse_event_fields event x y s) as (A & B & C & D & E & F & G).
  set (s' := snd (mouse_event_for_distance event x y s)) in *.
  exists (left_mouse_count s'), (selected_boxes s').
  destruct s', s. cbn in *. subst. reflexivity.
Qed.

Lemma step_counted (i : input) (s : DistanceCalculation) :
  left_mouse_count (step i s) = counted (left_mouse_count s) [i].
Proof.
  destruct i as [event x y|im0 tracks key]; cbn [step counted fold_left].
  - destruct (Z.eq_dec event EVENT_LBUTTONDOWN) as [->|Hl].
    + rewrite Z.eqb_refl. apply primary_click_count.
    + destruct (Z.eq_dec event EVENT_RBUTTONDOWN) as [->|Hr].
      * reflexivity.
      * rewrite other_event_ignored by assumption.
        apply Z.eqb_neq in Hl, Hr. now rewrite Hl, Hr.
  - now destruct (stable_start_process im0 tracks key s) as (_ & C & _).
Qed.

(** X5. Through any sequence of mouse events and frame steps, returned or
    raised, the click counter is the number of primary clicks since the last
    secondary click (added to the start value when there was none); frames and
    other mouse events leave it alone.  It is never negative when it starts at
    zero. *)
Theorem counter_counts_clicks (l : list input) (s : DistanceCalculation) :
  left_mouse_count (run l s) = counted (left_mouse_count s) l
  /\ (0 <= left_mouse_count s -> 0 <= left_mouse_count (run l s)).
Proof.
  assert (N : forall l n, 0 <= n -> 0 <= counted n l).
  { clear. induction l as [|i l IH]; intros n Hn; [exact Hn|].
    change (0 <= counted (counted n [i]) l). apply IH.
    cbn [counted fold_left]. destruct i as [event x y|]; [|exact Hn].
    destruct (event =? EVENT_LBUTTONDOWN); [lia|].
    destruct (event =? EVENT_RBUTTONDOWN); lia. }
  assert (E : forall l s, left_mouse_count (run l s) = counted (left_mouse_count s) l).
  { clear. induction l as [|i l IH]; intros s; [reflexivity|].
    change (left_mouse_count (run l (step i s))
            = counted (counted (left_mouse_count s) [i]) l).
    now rewrite IH, step_counted. }
  split; [apply E|]. intros H0. rewrite E. now apply N.
Qed.

(* ------------------------------------------------------------------ *)
(** ** Further properties of the distance estimate *)

Lemma calculate_distance_state (s : DistanceCalculation) (c1 c2 : point) :
  snd (calculate_distance c1 c2 s) = s.
Proof.
  unfold calculate_distance, Py.bind, Py.lift, Py.gets, Py.ret.
  destruct (math_sqrt _); [|reflexivity].
  now destruct (truediv _ _).
Qed.

Lemma calculate_distance_args (s s' : DistanceCalculation) (c1 c2 : point) :
  args s' = args s ->
  fst (calculate_distance c1 c2 s') = fst (calculate_distance c1 c2 s).
Proof.
  intros H. unfold calculate_distance, Py.bind, Py.lift, Py.gets, Py.ret.
  destruct (math_sqrt _); [|reflexivity]. rewrite H.
  now destruct (truediv _ _).
Qed.

(** X6. [calculate_distance] never changes the object, and its outcome is
    settled by two tests.  It raises [OverflowError] when the squared pixel
    distance is too large for the conversion to float, whatever the
    calibration; otherwise it raises [ZeroDivisionError] when the calibration
    is zero; otherwise it returns the pair of distances.  So it fails in these
    two ways only: the square root never fails. *)
Theorem calculate_distance_failures (s : DistanceCalculation) (c1 c2 : point) :
  snd (calculate_distance c1 c2 s) = s
  /\ (float_int_limit <= (fst c1 - fst c2) ^ 2 + (snd c1 - snd c2) ^ 2 ->
      fst (calculate_distance c1 c2 s) = Raise OverflowError)
  /\ ((fst c1 - fst c2) ^ 2 + (snd c1 - snd c2) ^ 2 < float_int_limit ->
      (pixels_per_meter (args s) =? 0)%float = true ->
      fst (calculate_distance c1 c2 s) = Raise ZeroDivisionError)
  /\ ((fst c1 - fst c2) ^ 2 + (snd c1 - snd c2) ^ 2 < float_int_limit ->
      (pixels_per_meter (args s) =? 0)%float = false ->
      fst (calculate_distance c1 c2 s)
      = Return ((PrimFloat.sqrt
                   (Z2float ((fst c1 - fst c2) ^ 2 + (snd c1 - snd c2) ^ 2))
                 / pixels_per_meter (args s))%float,
                (PrimFloat.sqrt
                   (Z2float ((fst c1 - fst c2) ^ 2 + (snd c1 - snd c2) ^ 2))
                 / pixels_per_meter (args s) * 1000)%float))
  /\ (forall e : exn,
        fst (calculate_distance c1 c2 s) = Raise e ->
        (e = OverflowError
         /\ float_int_limit <= (fst c1 - fst c2) ^ 2 + (snd c1 - snd c2) ^ 2)
        \/ (e = ZeroDivisionError
            /\ (pixels_per_meter (args s) =? 0)%float = true)).
Proof.
  pose proof (squared_distance_nonneg c1 c2) as N.
  set (n := (fst c1 - fst c2) ^ 2 + (snd c1 - snd c2) ^ 2) in *.
  assert (O : float_int_limit <= n ->
              fst (calculate_distance c1 c2 s) = Raise OverflowError).
  { intros H. unfold calculate_distance, Py.bind, Py.lift, math_sqrt, float_of_int.
    fold n. rewrite Z.abs_eq by exact N.
    replace (n <? float_int_limit) with false; [reflexivity|].
    symmetry. now apply Z.ltb_ge. }
  assert (Z0 : n < float_int_limit ->
               (pixels_per_meter (args s) =? 0)%float = true ->
               fst (calculate_distance c1 c2 s) = Raise ZeroDivisionError).
  { intros H Hc. unfold calculate_distance, Py.bind, Py.lift, Py.gets. fold n.
    rewrite math_sqrt_run by (split; assumption).
    unfold truediv. now rewrite Hc. }
  assert (R : n < float_int_limit ->
              (pixels_per_meter (args s) =? 0)%float = false ->
              fst (calculate_distance c1 c2 s)
              = Return ((PrimFloat.sqrt (Z2float n)
                         / pixels_per_meter (args s))%float,
                        (PrimFloat.sqrt (Z2float n)
                         / pixels_per_meter (args s) * 1000)%float)).
  { intros H Hc. unfold calculate_distance, Py.bind, Py.lift, Py.gets, Py.ret. fold n.
    rewrite math_sqrt_run by (split; assumption).
    unfold truediv. now rewrite Hc. }
  split; [apply calculate_distance_state|].
  split; [exact O|]. split; [exact Z0|]. split; [exact R|].
  intros e He.
  destruct (Z_lt_le_dec n float_int_limit) as [H|H].
  - destruct (pixels_per_meter (args s) =? 0)%float eqn:Hc.
    + right. rewrite (Z0 H eq_refl) in He. injection He as <-. now split.
    + rewrite (R H eq_refl) in He. discriminate.
  - left. rewrite (O H) in He. injection He as <-. now split.
Qed.

(** X7. Moving both centroids by the same offset does not change the answer
    of [calculate_distance], to the last bit: the differences are taken on
    integers before anything is rounded. *)
Theorem calculate_distance_translation (s : DistanceCalculation)
    (c1 c2 : point) (dx dy : Z) :
  calculate_distance (fst c1 + dx, snd c1 + dy) (fst c2 + dx, snd c2 + dy) s
  = calculate_distance c1 c2 s.
Proof.
  unfold calculate_distance. cbn [fst snd].
  replace (fst c1 + dx - (fst c2 + dx)) with (fst c1 - fst c2) by ring.
  replace (snd c1 + dy - (snd c2 + dy)) with (snd c1 - snd c2) by ring.
  reflexivity.
Qed.

(* ------------------------------------------------------------------ *)
(** ** The frame step in closed form *)

Lemma labelled_args (a : Args) (dets : list (box * (Z * Z))) :
  labelled a dets = forallb (fun d => match names_get (fst (snd d)) (names a) with
                                      | Some _ => true | None => false end) dets.
Proof. reflexivity. Qed.

(** The loop over the detections when every class has a label. *)
Lemma track_loop_state (dets : list (box * (Z * Z))) :
  forall (s : DistanceCalculation) (an : Annotator),
    annotator s = Some an -> labelled (args s) dets = true ->
    Py.for_each dets track_step s
    = (Return tt,
       set_selected_boxes (fold_left refresh_with dets (selected_boxes s))
         (set_annotator
            (Some (mkAnnotator
                     (im an ++ flat_map (label_request (names (args s))) dets)
                     (lw an))) s)).
Proof.
  induction dets as [|[b [c t]] dets IH]; intros s an Han Hl;
    cbn [Py.for_each fold_left flat_map].
  - unfold Py.ret. rewrite app_nil_r. destruct an, s. cbn in *. now subst.
  - apply labelled_cons in Hl. destruct Hl as [[label Hc] Hl].
    unfold Py.bind. rewrite track_step_run, Han, Hc.
    erewrite IH; [|reflexivity|exact Hl].
    unfold label_request at 2. cbn [fst snd]. rewrite Hc.
    destruct s. cbn. now rewrite <- app_assoc.
Qed.

(** The loop stops with [KeyError] at the first class without a label. *)
Lemma track_loop_unlabelled (dets : list (box * (Z * Z))) :
  forall s : DistanceCalculation,
    annotator s <> None -> labelled (args s) dets = false ->
    fst (Py.for_each dets track_step s) = Raise KeyError.
Proof.
  induction dets as [|[b [c t]] dets IH]; intros s Han Hl; [discriminate|].
  cbn [Py.for_each]. unfold Py.bind. rewrite track_step_run.
  destruct (annotator s) as [an|]; [|contradiction].
  rewrite labelled_args in Hl. cbn [forallb fst snd] in Hl.
  destruct (names_get c (names (args s))) as [label|]; [|reflexivity].
  apply IH; [discriminate | exact Hl].
Qed.

Lemma centroid_of_run (k : Z) (s : DistanceCalculation) (b : box) :
  dict_get k (selected_boxes s) = Some b ->
  centroid_of k s = (Return (mid b), s).
Proof.
  intros H. unfold centroid_of, dict_getitem, Py.bind, Py.gets. now rewrite H.
Qed.

Lemma centroids_run (keys : list Z) (s : DistanceCalculation) :
  (forall k, In k keys -> dict_contains k (selected_boxes s) = true) ->
  Py.comprehension keys centroid_of s
  = (Return (flat_map (fun k => match dict_get k (selected_boxes s) with
                                | Some b => [mid b]
                                | None => []
                                end) keys), s).
Proof.
  induction keys as [|k keys IH]; intros H; cbn [Py.comprehension flat_map].
  - reflexivity.
  - unfold Py.bind.
    assert (Hk : dict_contains k (selected_boxes s) = true) by (apply H; now left).
    unfold dict_contains in Hk.
    destruct (dict_get k (selected_boxes s)) as [b|] eqn:G; [|discriminate].
    rewrite (centroid_of_run k s G), IH by (intros k' Hk'; apply H; now right).
    reflexivity.
Qed.

Lemma centroids_of_length (d : dict) :
  List.length (centroids_of d) = List.length d.
Proof.
  unfold centroids_of.
  assert (G : forall keys, (forall k, In k keys -> dict_contains k d = true) ->
                List.length (flat_map (fun k => match dict_get k d with
                                                | Some b => [mid b]
                                                | None => []
                                                end) keys)
                = List.length keys).
  { induction keys as [|k keys IH]; intros H; cbn [flat_map]; [reflexivity|].
    assert (Hk : dict_contains k d = true) by (apply H; now left).
    unfold dict_contains in Hk. destruct (dict_get k d); [|discriminate].
    cbn [app List.length]. rewrite IH; [reflexivity|].
    intros k' Hk'. apply H. now right. }
  rewrite G by (intros k Hk; now apply dict_contains_keys).
  unfold dict_keys. apply length_map.
Qed.

Lemma centroids_of_two (d : dict) :
  len d = 2 -> exists c0 c1, centroids_of d = [c0; c1].
Proof.
  intros H. pose proof (centroids_of_length d) as L.
  unfold len in H. assert (List.length d = 2%nat) by lia.
  destruct (centroids_of d) as [|c0 [|c1 [|c2 r]]]; cbn in L; try lia.
  now exists c0, c1.
Qed.

(** Lines 105-117 when two tracks are selected. *)
Lemma measure_two (s : DistanceCalculation) (an : Annotator) (c0 c1 : point) :
  annotator s = Some an -> len (selected_boxes s) = 2 ->
  centroids_of (selected_boxes s) = [c0; c1] ->
  measure s
  = match fst (calculate_distance c0 c1 s) with
    | Return dist =>
        (Return tt,
         set_annotator
           (Some (mkAnnotator
                    (im an ++ [plot_distance_and_line (fst dist) (snd dist) [c0; c1]
                                 (line_color (args s)) (centroid_color (args s))])
                    (lw an)))
           (set_centroids [c0; c1] s))
    | Raise e => (Raise e, set_centroids [c0; c1] s)
    end.
Proof.
  intros Han H2 Hc. unfold measure. cbn [Py.bind Py.gets].
  apply Z.eqb_eq in H2. rewrite H2.
  unfold Py.bind at 1.
  rewrite centroids_run by (intros k Hk; now apply dict_contains_keys).
  fold (centroids_of (selected_boxes s)). rewrite Hc.
  cbn [Py.bind Py.modify Py.gets centroids set_centroids list_getitem nth_error Py.ret].
  unfold Py.bind at 1.
  pose proof (calculate_distance_state (set_centroids [c0; c1] s) c0 c1) as St.
  pose proof (@calculate_distance_args s (set_centroids [c0; c1] s) c0 c1 eq_refl) as Ar.
  destruct (calculate_distance c0 c1 (set_centroids [c0; c1] s)) as [o s'].
  cbn [fst snd] in St, Ar. subst s'. rewrite <- Ar.
  destruct o as [dist|e]; [|reflexivity].
  unfold annotate, Py.bind, Py.gets, Py.ret, Py.modify.
  cbn [annotator set_centroids centroids args]. rewrite Han. reflexivity.
Qed.

Lemma measure_other (s : DistanceCalculation) :
  len (selected_boxes s) <> 2 -> measure s = (Return tt, s).
Proof.
  intros H. unfold measure. cbn [Py.bind Py.gets].
  apply Z.eqb_neq in H. now rewrite H.
Qed.

Lemma refresh_fold_len (dets : list (box * (Z * Z))) (d : dict) :
  len (fold_left refresh_with dets d) = len d.
Proof. now rewrite <- len_keys, refresh_fold_keys, len_keys. Qed.

Lemma display_bind (m : M image) (key : Z) (s : DistanceCalculation) :
  Py.bind m (fun out => display out key) s
  = match m s with
    | (Return out, s') => (Return (display_answer s' key out), s')
    | (Raise e, s') => (Raise e, s')
    end.
Proof.
  unfold Py.bind. destruct (m s) as [[out|e] s']; [|reflexivity].
  now rewrite display_run.
Qed.

(** A frame without tracks. *)
Lemma frame_no_tracks (s : DistanceCalculation) (im0 : image) (tracks : Tracks)
    (key : Z) :
  t_ids tracks = None ->
  start_process im0 tracks key s
  = (Return (display_answer s key im0), set_tracks tracks s).
Proof.
  intros H. unfold start_process.
  cbn [Py.bind Py.modify Py.gets trk_ids set_tracks]. rewrite H.
  rewrite display_bind. reflexivity.
Qed.

(** A frame with tracks, up to the end of the loop over the detections. *)
Lemma frame_start (s : DistanceCalculation) (im0 : image) (tracks : Tracks)
    (key : Z) (bs : list box) (cs ts : list Z) :
  t_boxes tracks = Some bs -> t_clss tracks = Some cs -> t_ids tracks = Some ts ->
  start_process im0 tracks key s
  = Py.bind
      (Py.bind (Py.for_each (detections tracks) track_step)
         (fun _ => measure ;;;
                   Py.modify (set_centroids []) ;;;
                   an <- Py.gets annotator ;;
                   Py.ret (match an with Some an' => im an' | None => im0 end)))
      (fun out => display out key)
      (set_annotator (Some (mkAnnotator im0 (line_thickness (args s))))
         (set_tracks tracks s)).
Proof.
  intros Hb Hc Ht. unfold start_process, detections.
  cbn [Py.bind Py.modify Py.gets trk_ids set_tracks]. rewrite Ht, Hb, Hc.
  unfold Py.bind at 1. unfold annotate_tracks.
  cbn [Py.bind Py.modify Py.gets Py.ret boxes clss trk_ids set_tracks set_annotator
       zip3 args].
  rewrite Hb, Hc, Ht. cbn [zip3 Py.ret Py.bind]. reflexivity.
Qed.

Lemma frame_unlabelled (s : DistanceCalculation) (im0 : image) (tracks : Tracks)
    (key : Z) (bs : list box) (cs ts : list Z) :
  t_boxes tracks = Some bs -> t_clss tracks = Some cs -> t_ids tracks = Some ts ->
  labelled (args s) (detections tracks) = false ->
  fst (start_process im0 tracks key s) = Raise KeyError.
Proof.
  intros Hb Hc Ht Hl. rewrite (@frame_start s im0 tracks key bs cs ts Hb Hc Ht).
  rewrite display_bind. unfold Py.bind at 1.
  match goal with
  | |- context [Py.for_each ?d track_step ?s0] =>
      pose proof (@track_loop_unlabelled d s0) as U;
      destruct (Py.for_each d track_step s0) as [[[]|e] s']
  end; cbn [fst] in U.
  - cbn [annotator set_annotator args set_tracks] in U.
    specialize (U ltac:(discriminate) Hl). discriminate.
  - cbn [annotator set_annotator args set_tracks] in U.
    specialize (U ltac:(discriminate) Hl). cbn [fst]. now injection U as ->.
Qed.

(** A frame with tracks and labels, up to the measure. *)
Lemma frame_labelled (s : DistanceCalculation) (im0 : image) (tracks : Tracks)
    (key : Z) (bs : list box) (cs ts : list Z) :
  t_boxes tracks = Some bs -> t_clss tracks = Some cs -> t_ids tracks = Some ts ->
  labelled (args s) (detections tracks) = true ->
  start_process im0 tracks key s
  = Py.bind
      (measure ;;;
       Py.modify (set_centroids []) ;;;
       an <- Py.gets annotator ;;
       Py.ret (match an with Some an' => im an' | None => im0 end))
      (fun out => display out key)
      (set_selected_boxes (refreshed_selection s tracks)
         (set_annotator
            (Some (mkAnnotator
                     (im0 ++ flat_map (label_request (names (args s)))
                                      (detections tracks))
                     (line_thickness (args s))))
            (set_tracks tracks s))).
Proof.
  intros Hb Hc Ht Hl. rewrite (@frame_start s im0 tracks key bs cs ts Hb Hc Ht).
  unfold Py.bind at 1 2.
  erewrite track_loop_state; [|reflexivity|exact Hl].
  cbn [im lw selected_boxes set_annotator set_tracks args]. unfold refreshed_selection.
  unfold Py.bind at 3. destruct s; reflexivity.
Qed.

Lemma frame_success (s : DistanceCalculation) (im0 : image) (tracks : Tracks)
    (key : Z) (bs : list box) (cs ts : list Z) :
  t_boxes tracks = Some bs -> t_clss tracks = Some cs -> t_ids tracks = Some ts ->
  labelled (args s) (detections tracks) = true ->
  (len (selected_boxes s) <> 2
   \/ exists c0 c1 dist,
        centroids_of (refreshed_selection s tracks) = [c0; c1]
        /\ fst (calculate_distance c0 c1 s) = Return dist) ->
  let s' := set_centroids []
              (set_selected_boxes (refreshed_selection s tracks)
                 (set_annotator
                    (Some (mkAnnotator (drawn s im0 tracks) (line_thickness (args s))))
                    (set_tracks tracks s))) in
  start_process im0 tracks key s
  = (Return (display_answer s' key (drawn s im0 tracks)), s').
Proof.
  intros Hb Hc Ht Hl Hok. cbv zeta.
  rewrite (@frame_labelled s im0 tracks key bs cs ts Hb Hc Ht Hl). rewrite display_bind.
  unfold Py.bind at 1. unfold drawn, distance_request.
  assert (L : len (refreshed_selection s tracks) = len (selected_boxes s))
    by apply refresh_fold_len.
  rewrite L.
  destruct Hok as [Hn|(c0 & c1 & dist & Hcs & Hd)].
  - rewrite measure_other by (cbn [selected_boxes set_selected_boxes]; now rewrite L).
    apply Z.eqb_neq in Hn. rewrite Hn. rewrite !app_nil_r.
    destruct s; reflexivity.
  - destruct (Z.eq_dec (len (selected_boxes s)) 2) as [H2|Hn].
    + erewrite measure_two;
        [|reflexivity|cbn [selected_boxes set_selected_boxes]; now rewrite L|exact Hcs].
      rewrite (@calculate_distance_args s _ c0 c1) by reflexivity.
      apply Z.eqb_eq in H2. rewrite H2, Hcs, Hd.
      destruct s; cbn. now rewrite <- app_assoc.
    + rewrite measure_other by (cbn [selected_boxes set_selected_boxes]; now rewrite L).
      apply Z.eqb_neq in Hn. rewrite Hn. rewrite !app_nil_r.
      destruct s; reflexivity.
Qed.

Lemma frame_distance_error (s : DistanceCalculation) (im0 : image) (tracks : Tracks)
    (key : Z) (bs : list box) (cs ts : list Z) (c0 c1 : point) (e : exn) :
  t_boxes tracks = Some bs -> t_clss tracks = Some cs -> t_ids tracks = Some ts ->
  labelled (args s) (detections tracks) = true ->
  len (selected_boxes s) = 2 ->
  centroids_of (refreshed_selection s tracks) = [c0; c1] ->
  fst (calculate_distance c0 c1 s) = Raise e ->
  start_process im0 tracks key s
  = (Raise e,
     set_centroids [c0; c1]
       (set_selected_boxes (refreshed_selection s tracks)
          (set_annotator
             (Some (mkAnnotator
                      (im0 ++ flat_map (label_request (names (args s)))
                                       (detections tracks))
                      (line_thickness (args s))))
             (set_tracks tracks s)))).
Proof.
  intros Hb Hc Ht Hl H2 Hcs Hd.
  rewrite (@frame_labelled s im0 tracks key bs cs ts Hb Hc Ht Hl). rewrite display_bind.
  unfold Py.bind at 1.
  assert (L : len (refreshed_selection s tracks) = len (selected_boxes s))
    by apply refresh_fold_len.
  erewrite measure_two;
    [|reflexivity|cbn [selected_boxes set_selected_boxes]; now rewrite L|exact Hcs].
  rewrite (@calculate_distance_args s _ c0 c1) by reflexivity.
  rewrite Hd. reflexivity.
Qed.

(* ------------------------------------------------------------------ *)
(** ** Coordinates in range *)

Lemma dict_get_In (k : Z) (b : box) (d : dict) :
  dict_get k d = Some b -> In (k, b) d.
Proof.
  induction d as [|[k' v'] d IH]; simpl; [discriminate|].
  destruct (k' =? k) eqn:E.
  - apply Z.eqb_eq in E. intros H. injection H as <-. subst. now left.
  - intros H. right. now apply IH.
Qed.

Lemma dict_set_In (k k' : Z) (v b' : box) (d : dict) :
  In (k', b') (dict_set k v d) -> (k', b') = (k, v) \/ In (k', b') d.
Proof.
  induction d as [|[k0 v0] d IH]; simpl.
  - intros [H|[]]. now left.
  - destruct (k0 =? k); simpl.
    + intros [H|H]; [now left | right; now right].
    + intros [H|H]; [right; now left|].
      destruct (IH H) as [G|G]; [now left | right; now right].
Qed.

Lemma refresh_in_range (dets : list (box * (Z * Z))) :
  forall d : dict,
    selection_in_range d = true ->
    forallb (fun det => in_range (fst det)) dets = true ->
    selection_in_range (fold_left refresh_with dets d) = true.
Proof.
  induction dets as [|[b [c t]] dets IH]; intros d Hd Hf; cbn [fold_left]; [exact Hd|].
  cbn [forallb fst] in Hf. apply andb_true_iff in Hf. destruct Hf as [Hb Hf].
  apply IH; [|exact Hf].
  rewrite refresh_with_spec.
  destruct ((len d =? 2) && dict_contains t d); [|exact Hd].
  unfold selection_in_range in *. rewrite forallb_forall in *.
  intros [k' b'] Hin. apply dict_set_In in Hin. destruct Hin as [E|Hin].
  - injection E as -> ->. exact Hb.
  - now apply Hd.
Qed.

Lemma mid_in_range (b : box) :
  in_range b = true ->
  Z.abs (fst (mid b)) <= 2 ^ 32 /\ Z.abs (snd (mid b)) <= 2 ^ 32.
Proof.
  unfold in_range, mid. rewrite !andb_true_iff, !Z.leb_le.
  change (2 ^ 32) with 4294967296. cbn [fst snd].
  intros [[[H0 H1] H2] H3].
  pose proof (Z.div_mod (b0 b + b2 b) 2 ltac:(lia)) as D1.
  pose proof (Z.mod_pos_bound (b0 b + b2 b) 2 ltac:(lia)) as M1.
  pose proof (Z.div_mod (b1 b + b3 b) 2 ltac:(lia)) as D2.
  pose proof (Z.mod_pos_bound (b1 b + b3 b) 2 ltac:(lia)) as M2.
  lia.
Qed.

Lemma centroids_in_range (d : dict) (c : point) :
  selection_in_range d = true -> In c (centroids_of d) ->
  Z.abs (fst c) <= 2 ^ 32 /\ Z.abs (snd c) <= 2 ^ 32.
Proof.
  intros Hd Hc. unfold centroids_of in Hc. apply in_flat_map in Hc.
  destruct Hc as (k & _ & Hc).
  destruct (dict_get k d) as [b|] eqn:G; [|destruct Hc].
  destruct Hc as [<-|[]]. apply mid_in_range.
  unfold selection_in_range in Hd. rewrite forallb_forall in Hd.
  apply (Hd (k, b)). now apply dict_get_In.
Qed.

(** With coordinates in range the distance of the two centroids fails only on
    a calibration of zero. *)
Lemma measure_distance (s : DistanceCalculation) (d : dict) (c0 c1 : point) :
  selection_in_range d = true -> centroids_of d = [c0; c1] ->
  fst (calculate_distance c0 c1 s)
  = if (pixels_per_meter (args s) =? 0)%float then Raise ZeroDivisionError
    else Return ((PrimFloat.sqrt (Z2float ((fst c0 - fst c1) ^ 2 + (snd c0 - snd c1) ^ 2))
                  / pixels_per_meter (args s))%float,
                 (PrimFloat.sqrt (Z2float ((fst c0 - fst c1) ^ 2 + (snd c0 - snd c1) ^ 2))
                  / pixels_per_meter (args s) * 1000)%float).
Proof.
  intros Hd Hc.
  destruct (@centroids_in_range d c0 Hd) as [A0 B0]; [rewrite Hc; now left|].
  destruct (@centroids_in_range d c1 Hd) as [A1 B1];
    [rewrite Hc; right; now left|].
  pose proof (pixel_range_converts c0 c1 A0 B0 A1 B1) as R.
  unfold calculate_distance, Py.bind, Py.lift, Py.gets, Py.ret.
  rewrite math_sqrt_run by (split; [apply squared_distance_nonneg | exact R]).
  unfold truediv. now destruct (pixels_per_meter (args s) =? 0)%float.
Qed.

(* ------------------------------------------------------------------ *)
(** ** Further properties of the frame step *)

(** X8. Whatever the frame and however the step ends, returned or raised,
    [start_process] neither adds nor removes a selected track nor reorders
    them, and it never changes the click counter or the configuration. *)
Theorem frame_step_keeps (s : DistanceCalculation) (im0 : image) (tracks : Tracks)
    (key : Z) :
  dict_keys (selected_boxes (snd (start_process im0 tracks key s)))
  = dict_keys (selected_boxes s)
  /\ left_mouse_count (snd (start_process im0 tracks key s)) = left_mouse_count s
  /\ args (snd (start_process im0 tracks key s)) = args s
  /\ env_check (snd (start_process im0 tracks key s)) = env_check s.
Proof.
  destruct (stable_start_process im0 tracks key s) as (K & C & A & E & _).
  auto.
Qed.

(** X9. Whatever follows, returned or raised, [start_process] leaves the
    detections of its frame in the object: the click handler always tests the
    boxes of the last frame delivered. *)
Theorem frame_step_stores (s : DistanceCalculation) (im0 : image) (tracks : Tracks)
    (key x y : Z) :
  boxes (snd (start_process im0 tracks key s)) = t_boxes tracks
  /\ clss (snd (start_process im0 tracks key s)) = t_clss tracks
  /\ trk_ids (snd (start_process im0 tracks key s)) = t_ids tracks
  /\ hits x y (snd (start_process im0 tracks key s))
     = match t_boxes tracks, t_ids tracks with
       | Some bs, Some ts => filter (fun bt => inside (fst bt) x y) (combine bs ts)
       | _, _ => []
       end.
Proof.
  destruct (start_process_stores im0 tracks key s) as (B & C & T).
  repeat split; try assumption.
  unfold hits, click_targets. rewrite B, T.
  now destruct (t_boxes tracks), (t_ids tracks).
Qed.

(** X10. A frame in which the tracker reports no track ([trk_ids] is [None])
    is returned as it came, or [None] on the quit key; nothing is drawn, and
    the selection, the annotator of the frame before and the centroid buffer
    are left as they were. *)
Theorem frame_without_tracks (s : DistanceCalculation) (im0 : image)
    (tracks : Tracks) (key : Z) :
  t_ids tracks = None ->
  fst (start_process im0 tracks key s) = Return (display_answer s key im0)
  /\ selected_boxes (snd (start_process im0 tracks key s)) = selected_boxes s
  /\ annotator (snd (start_process im0 tracks key s)) = annotator s
  /\ centroids (snd (start_process im0 tracks key s)) = centroids s.
Proof.
  intros H. rewrite (@frame_no_tracks s im0 tracks key H). repeat split.
Qed.

Lemma frame_without_tracks_witness :
  t_ids no_tracks = None
  /\ fst (start_process [] no_tracks 0 both_selected) = Return (Some [])
  /\ selected_boxes (snd (start_process [] no_tracks 0 both_selected))
     = [(1, Box 0 0 10 10); (2, Box 100 0 110 10)].
Proof.
  destruct (@frame_without_tracks both_selected [] no_tracks 0 eq_refl)
    as (R & S & _).
  split; [reflexivity|]. split; [rewrite R; reflexivity | rewrite S; reflexivity].
Defined.

(** What a returning frame step with tracks went through. *)
Lemma frame_returns_inv (s : DistanceCalculation) (im0 : image) (tracks : Tracks)
    (key : Z) (bs : list box) (cs ts : list Z) :
  t_boxes tracks = Some bs -> t_clss tracks = Some cs -> t_ids tracks = Some ts ->
  returns (fst (start_process im0 tracks key s)) = true ->
  labelled (args s) (detections tracks) = true
  /\ (len (selected_boxes s) <> 2
      \/ exists c0 c1 dist,
           centroids_of (refreshed_selection s tracks) = [c0; c1]
           /\ fst (calculate_distance c0 c1 s) = Return dist).
Proof.
  intros Hb Hc Ht Hr.
  destruct (labelled (args s) (detections tracks)) eqn:Hl.
  2:{ rewrite (@frame_unlabelled s im0 tracks key bs cs ts Hb Hc Ht Hl) in Hr.
      discriminate. }
  split; [reflexivity|].
  destruct (Z.eq_dec (len (selected_boxes s)) 2) as [H2|Hn]; [|now left].
  right.
  destruct (@centroids_of_two (refreshed_selection s tracks)) as (c0 & c1 & Hcs).
  { unfold refreshed_selection. now rewrite refresh_fold_len. }
  exists c0, c1.
  destruct (fst (calculate_distance c0 c1 s)) as [dist|e] eqn:Hd; [now exists dist|].
  rewrite (@frame_distance_error s im0 tracks key bs cs ts c0 c1 e
             Hb Hc Ht Hl H2 Hcs Hd) in Hr.
  discriminate.
Qed.

(** X11. Whenever [start_process] returns on a frame with tracks, the
    annotator holds the incoming frame followed by one [box_label] request per
    detection, in the order of the detections and whatever is selected, and
    then the [plot_distance_and_line] request if and only if two tracks are
    selected; the selection is the refreshed one and the answer is that frame,
    or [None] on the quit key. *)
Theorem frame_step_draws (s : DistanceCalculation) (im0 : image) (tracks : Tracks)
    (key : Z) (bs : list box) (cs ts : list Z) :
  t_boxes tracks = Some bs -> t_clss tracks = Some cs -> t_ids tracks = Some ts ->
  returns (fst (start_process im0 tracks key s)) = true ->
  annotator (snd (start_process im0 tracks key s))
  = Some (mkAnnotator (drawn s im0 tracks) (line_thickness (args s)))
  /\ fst (start_process im0 tracks key s)
     = Return (display_answer s key (drawn s im0 tracks))
  /\ selected_boxes (snd (start_process im0 tracks key s))
     = refreshed_selection s tracks
  /\ List.length (flat_map (label_request (names (args s))) (detections tracks))
     = List.length (detections tracks)
  /\ (len (selected_boxes s) = 2 <->
      exists dm dmm c0 c1,
        distance_request s (refreshed_selection s tracks)
        = [plot_distance_and_line dm dmm [c0; c1]
             (line_color (args s)) (centroid_color (args s))])
  /\ (len (selected_boxes s) <> 2 ->
      distance_request s (refreshed_selection s tracks) = []).
Proof.
  intros Hb Hc Ht Hr.
  destruct (@frame_returns_inv s im0 tracks key bs cs ts Hb Hc Ht Hr) as [Hl Hok].
  rewrite (@frame_success s im0 tracks key bs cs ts Hb Hc Ht Hl Hok).
  cbn [fst snd annotator selected_boxes set_centroids set_selected_boxes set_annotator].
  split; [reflexivity|]. split; [reflexivity|]. split; [reflexivity|].
  assert (L : len (refreshed_selection s tracks) = len (selected_boxes s))
    by apply refresh_fold_len.
  split.
  { clear -Hl. induction (detections tracks) as [|[b [c t]] dets IH]; [reflexivity|].
    apply labelled_cons in Hl. destruct Hl as [[label Hc] Hl].
    cbn [flat_map]. unfold label_request at 1. cbn [fst snd]. rewrite Hc.
    cbn [app List.length]. now rewrite IH. }
  unfold distance_request. rewrite L. split; [split|].
  - intros H2. destruct Hok as [Hn|(c0 & c1 & dist & Hcs & Hd)]; [contradiction|].
    apply Z.eqb_eq in H2. rewrite H2, Hcs, Hd.
    now exists (fst dist), (snd dist), c0, c1.
  - intros (dm & dmm & c0 & c1 & E).
    destruct (len (selected_boxes s) =? 2) eqn:H2; [now apply Z.eqb_eq|discriminate].
  - intros Hn. apply Z.eqb_neq in Hn. now rewrite Hn.
Qed.

Lemma frame_step_draws_witness :
  t_boxes two_apart = Some [Box 0 0 10 10; Box 100 0 110 10]
  /\ t_clss two_apart = Some [0; 1]
  /\ t_ids two_apart = Some [1; 2]
  /\ returns (fst (start_process [] two_apart 0 one_selected)) = true
  /\ annotator (snd (start_process [] two_apart 0 one_selected))
     = Some (mkAnnotator [box_label (Box 0 0 10 10) 0 "person"%string;
                          box_label (Box 100 0 110 10) 1 "car"%string] 2).
Proof.
  split; [reflexivity|]. split; [reflexivity|]. split; [reflexivity|].
  split; [reflexivity|].
  destruct (@frame_step_draws one_selected [] two_apart 0
              [Box 0 0 10 10; Box 100 0 110 10] [0; 1] [1; 2]
              eq_refl eq_refl eq_refl eq_refl) as (A & _).
  rewrite A. reflexivity.
Defined.

Lemma returns_bind {A B} (m : M A) (k : A -> M B) (s : DistanceCalculation) :
  returns (fst (Py.bind m k s)) = true ->
  exists a s', m s = (Return a, s') /\ Py.bind m k s = k a s'.
Proof.
  unfold Py.bind. destruct (m s) as [[a|e] s']; [|discriminate].
  intros _. now exists a, s'.
Qed.

(** X12. Whenever [start_process] returns on a frame with tracks, the
    centroid buffer is empty again: the centroids of a frame are not carried
    to the next. *)
Theorem frame_step_clears_centroids (s : DistanceCalculation) (im0 : image)
    (tracks : Tracks) (key : Z) :
  t_ids tracks <> None ->
  returns (fst (start_process im0 tracks key s)) = true ->
  centroids (snd (start_process im0 tracks key s)) = [].
Proof.
  intros Ht Hr. unfold start_process in *.
  cbn [Py.bind Py.modify Py.gets trk_ids set_tracks] in *.
  destruct (t_ids tracks) as [ts|]; [clear Ht|contradiction].
  rewrite display_bind in *.
  destruct (annotate_tracks im0 (set_tracks tracks s)) as [[out|e] s'] eqn:E;
    [clear Hr|discriminate].
  cbn [snd].
  assert (R : returns (fst (annotate_tracks im0 (set_tracks tracks s))) = true)
    by now rewrite E.
  assert (S : centroids (snd (annotate_tracks im0 (set_tracks tracks s))) = []);
    [|now rewrite E in S].
  clear E. unfold annotate_tracks in *.
  do 8 match type of R with
         | returns (fst (Py.bind ?m ?k ?s0)) = true =>
             let a := fresh "a" in
             let s1 := fresh "s" in
             let E1 := fresh "E" in
             let E2 := fresh "E" in
             destruct (returns_bind m k s0 R) as (a & s1 & E1 & E2);
             rewrite E2 in R |- *; clear E1 E2; cbv beta in R |- *
         end.
  reflexivity.
Qed.

Lemma frame_step_clears_centroids_witness :
  t_ids two_apart <> None
  /\ returns (fst (start_process [] two_apart 0 both_selected)) = true
  /\ centroids (snd (start_process [] two_apart 0 both_selected)) = [].
Proof.
  split; [discriminate|]. split; [reflexivity|].
  apply (@frame_step_clears_centroids both_selected [] two_apart 0);
    [discriminate | reflexivity].
Defined.

(** X13. Whenever [start_process] returns, its answer is [None] exactly when
    the display is on ([view_img] set and the environment able to show) and
    the key read is [q]; otherwise it is a frame. *)
Theorem frame_step_quits (s : DistanceCalculation) (im0 : image) (tracks : Tracks)
    (key : Z) (r : option image) :
  fst (start_process im0 tracks key s) = Return r ->
  (r = None <->
   view_img (args s) && env_check s && (Z.land key 255 =? 113) = true).
Proof.
  intros Hr.
  destruct (stable_start_process im0 tracks key s) as (_ & _ & A & E & _).
  unfold start_process in *.
  cbn [Py.bind Py.modify Py.gets trk_ids set_tracks] in *.
  rewrite display_bind in *.
  match type of Hr with
  | fst (match ?m with _ => _ end) = _ => destruct m as [[out|e] s']
  end; [|discriminate].
  cbn [fst snd] in *. injection Hr as <-.
  unfold display_answer. rewrite A, E.
  destruct (view_img (args s) && env_check s); cbn [andb].
  - destruct (Z.land key 255 =? 113); split; congruence.
  - split; congruence.
Qed.

Lemma frame_step_quits_witness :
  fst (start_process [] two_apart 113 both_selected) = Return None
  /\ view_img (args both_selected) && env_check both_selected
     && (Z.land 113 255 =? 113) = true.
Proof.
  assert (H : fst (start_process [] two_apart 113 both_selected) = Return None)
    by reflexivity.
  split; [exact H|].
  now apply (@frame_step_quits both_selected [] two_apart 113 None H).
Defined.

Lemma consistent_cases (t : Tracks) :
  consistent t = true ->
  t_ids t = None
  \/ exists bs cs ts, t_boxes t = Some bs /\ t_clss t = Some cs /\ t_ids t = Some ts.
Proof.
  unfold consistent.
  destruct (t_boxes t) as [bs|], (t_clss t) as [cs|], (t_ids t) as [ts|];
    try discriminate; intros _; [right | left; reflexivity].
  now exists bs, cs, ts.
Qed.

(** X14. [start_process] returns whenever the tracker's answer is three
    lists or three [None], every detected class has a label, the coordinates
    of the stored and of the incoming boxes are of at most 32 bits, and the
    calibration is not zero when two tracks are selected. *)
Theorem frame_step_returns (s : DistanceCalculation) (im0 : image) (tracks : Tracks)
    (key : Z) :
  consistent tracks = true ->
  labelled (args s) (detections tracks) = true ->
  selection_in_range (selected_boxes s) = true ->
  frame_in_range tracks = true ->
  (len (selected_boxes s) = 2 -> (pixels_per_meter (args s) =? 0)%float = false) ->
  returns (fst (start_process im0 tracks key s)) = true.
Proof.
  intros Hcons Hl Hs Hf Hp.
  destruct (consistent_cases tracks Hcons) as [Hn|(bs & cs & ts & Hb & Hc & Ht)].
  - now rewrite (@frame_no_tracks s im0 tracks key Hn).
  - rewrite (@frame_success s im0 tracks key bs cs ts Hb Hc Ht Hl); [reflexivity|].
    destruct (Z.eq_dec (len (selected_boxes s)) 2) as [H2|Hn]; [right | now left].
    destruct (@centroids_of_two (refreshed_selection s tracks)) as (c0 & c1 & Hcs).
    { unfold refreshed_selection. now rewrite refresh_fold_len. }
    exists c0, c1.
    assert (R : selection_in_range (refreshed_selection s tracks) = true)
      by (apply refresh_in_range; assumption).
    rewrite (@measure_distance s _ c0 c1 R Hcs), (Hp H2). eauto.
Qed.

Lemma frame_step_returns_witness :
  consistent one_moved = true
  /\ labelled (args both_selected) (detections one_moved) = true
  /\ selection_in_range (selected_boxes both_selected) = true
  /\ frame_in_range one_moved = true
  /\ (pixels_per_meter (args both_selected) =? 0)%float = false
  /\ returns (fst (start_process [] one_moved 0 both_selected)) = true.
Proof.
  split; [reflexivity|]. split; [reflexivity|]. split; [reflexivity|].
  split; [reflexivity|]. split; [reflexivity|].
  apply (@frame_step_returns both_selected [] one_moved 0); try reflexivity.
Defined.

(** X15. On a frame with tracks in which some detected class has no label in
    [names], [start_process] raises [KeyError]; the frame's detections are
    stored all the same, and no selected track is added or removed. *)
Theorem frame_step_unlabelled_raises (s : DistanceCalculation) (im0 : image)
    (tracks : Tracks) (key : Z) (bs : list box) (cs ts : list Z) :
  t_boxes tracks = Some bs -> t_clss tracks = Some cs -> t_ids tracks = Some ts ->
  labelled (args s) (detections tracks) = false ->
  fst (start_process im0 tracks key s) = Raise KeyError
  /\ boxes (snd (start_process im0 tracks key s)) = Some bs
  /\ trk_ids (snd (start_process im0 tracks key s)) = Some ts
  /\ dict_keys (selected_boxes (snd (start_process im0 tracks key s)))
     = dict_keys (selected_boxes s).
Proof.
  intros Hb Hc Ht Hl.
  destruct (start_process_stores im0 tracks key s) as (B & _ & T).
  destruct (stable_start_process im0 tracks key s) as (K & _).
  rewrite (@frame_unlabelled s im0 tracks key bs cs ts Hb Hc Ht Hl).
  repeat split; congruence.
Qed.

Lemma frame_step_unlabelled_raises_witness :
  labelled (args both_selected) (detections unlabelled_frame) = false
  /\ fst (start_process [] unlabelled_frame 0 both_selected) = Raise KeyError.
Proof.
  split; [reflexivity|].
  apply (@frame_step_unlabelled_raises both_selected [] unlabelled_frame 0
           [Box 0 0 10 10; Box 20 20 30 30] [0; 7] [1; 2]); reflexivity.
Defined.

(** X16. With two tracks selected and a calibration of zero, a labelled
    frame with tracks and coordinates in range makes [start_process] raise
    [ZeroDivisionError].  The labels are drawn and the selection is refreshed
    before that, no distance is drawn, and the centroid buffer is left holding
    the two centroids instead of being emptied. *)
Theorem frame_step_zero_calibration_raises (s : DistanceCalculation) (im0 : image)
    (tracks : Tracks) (key : Z) (bs : list box) (cs ts : list Z) :
  t_boxes tracks = Some bs -> t_clss tracks = Some cs -> t_ids tracks = Some ts ->
  labelled (args s) (detections tracks) = true ->
  selection_in_range (selected_boxes s) = true ->
  frame_in_range tracks = true ->
  len (selected_boxes s) = 2 ->
  (pixels_per_meter (args s) =? 0)%float = true ->
  fst (start_process im0 tracks key s) = Raise ZeroDivisionError
  /\ selected_boxes (snd (start_process im0 tracks key s)) = refreshed_selection s tracks
  /\ centroids (snd (start_process im0 tracks key s))
     = centroids_of (refreshed_selection s tracks)
  /\ annotator (snd (start_process im0 tracks key s))
     = Some (mkAnnotator
               (im0 ++ flat_map (label_request (names (args s))) (detections tracks))
               (line_thickness (args s))).
Proof.
  intros Hb Hc Ht Hl Hs Hf H2 Hp.
  destruct (@centroids_of_two (refreshed_selection s tracks)) as (c0 & c1 & Hcs).
  { unfold refreshed_selection. now rewrite refresh_fold_len. }
  assert (R : selection_in_range (refreshed_selection s tracks) = true)
    by (apply refresh_in_range; assumption).
  pose proof (@measure_distance s _ c0 c1 R Hcs) as D. rewrite Hp in D.
  rewrite (@frame_distance_error s im0 tracks key bs cs ts c0 c1 ZeroDivisionError
             Hb Hc Ht Hl H2 Hcs D).
  rewrite Hcs. repeat split.
Qed.

Lemma frame_step_zero_calibration_raises_witness :
  len (selected_boxes both_selected_zero) = 2
  /\ (pixels_per_meter (args both_selected_zero) =? 0)%float = true
  /\ fst (start_process [] two_apart 0 both_selected_zero) = Raise ZeroDivisionError
  /\ centroids (snd (start_process [] two_apart 0 both_selected_zero))
     = [(5, 5); (105, 5)].
Proof.
  split; [reflexivity|]. split; [reflexivity|].
  destruct (@frame_step_zero_calibration_raises both_selected_zero [] two_apart 0
              [Box 0 0 10 10; Box 100 0 110 10] [0; 1] [1; 2]
              eq_refl eq_refl eq_refl eq_refl eq_refl eq_refl eq_refl eq_refl)
    as (E & _ & C & _).
  split; [exact E|]. rewrite C. reflexivity.
Defined.

(* ------------------------------------------------------------------ *)
(** ** Reset and select again *)

(** X17. A secondary click followed by a primary click, over stored
    detections and from any state, leaves exactly the tracks whose box holds
    the clicked point strictly inside, each with the box of its first such
    detection, and a click counter of one: whatever was selected or counted
    before is gone. *)
Theorem reset_then_click_selects (s : DistanceCalculation) (x0 y0 x y : Z)
    (bs : list box) (ts : list Z) :
  boxes s = Some bs -> trk_ids s = Some ts ->
  let s' := run [Mouse EVENT_RBUTTONDOWN x0 y0; Mouse EVENT_LBUTTONDOWN x y] s in
  left_mouse_count s' = 1
  /\ forall k, dict_get k (selected_boxes s')
               = match first_hit k x y s with
                 | Some bt => Some (fst bt)
                 | None => None
                 end.
Proof.
  intros Hb Ht. cbv zeta. cbn [run fold_left step].
  set (s1 := snd (mouse_event_for_distance EVENT_RBUTTONDOWN x0 y0 s)).
  assert (B1 : boxes s1 = Some bs) by exact Hb.
  assert (T1 : trk_ids s1 = Some ts) by exact Ht.
  assert (C1 : left_mouse_count s1 = 0) by reflexivity.
  assert (S1 : selected_boxes s1 = []) by reflexivity.
  split.
  - rewrite primary_click_count, C1. reflexivity.
  - intros k. rewrite primary_click_selection, C1. cbn [Z.add Z.leb Z.compare Pos.compare Pos.compare_cont].
    rewrite click_fold_selects, S1. cbn [dict_get]. unfold first_hit, click_targets.
    now rewrite B1, T1, Hb, Ht.
Qed.

Lemma reset_then_click_selects_witness :
  boxes both_selected = Some [Box 0 0 10 10; Box 100 0 110 10]
  /\ trk_ids both_selected = Some [1; 2]
  /\ selected_boxes (run [Mouse EVENT_RBUTTONDOWN 0 0; Mouse EVENT_LBUTTONDOWN 105 5]
                         both_selected)
     = [(2, Box 100 0 110 10)]
  /\ dict_get 2 (selected_boxes
                   (run [Mouse EVENT_RBUTTONDOWN 0 0; Mouse EVENT_LBUTTONDOWN 105 5]
                        both_selected))
     = Some (Box 100 0 110 10).
Proof.
  split; [reflexivity|]. split; [reflexivity|]. split; [reflexivity|].
  destruct (@reset_then_click_selects both_selected 0 0 105 5
              [Box 0 0 10 10; Box 100 0 110 10] [1; 2] eq_refl eq_refl) as [_ G].
  rewrite (G 2). reflexivity.
Defined.

(* ------------------------------------------------------------------ *)
(** ** What a frame step may write *)

Lemma stable_for_each_in (R : DistanceCalculation -> DistanceCalculation -> Prop)
    {A} (l : list A) (body : A -> M unit) :
  (forall s, R s s) -> (forall s1 s2 s3, R s1 s2 -> R s2 s3 -> R s1 s3) ->
  (forall a, In a l -> stable R (body a)) -> stable R (Py.for_each l body).
Proof.
  intros Rr Rt. induction l as [|a l IH]; intros Hb; cbn [Py.for_each].
  - now apply stable_ret.
  - apply stable_bind; [exact Rt | apply Hb; now left |].
    intros _. apply IH. intros a' Ha'. apply Hb. now right.
Qed.

(** X18. Whatever the frame and however the step ends, returned or raised,
    the box [start_process] leaves for a selected track is the one it had or
    the box of a detection of that very track in the frame: a track absent
    from the frame keeps its box, and no box is taken from another track. *)
Theorem frame_step_writes_from_frame (s : DistanceCalculation) (im0 : image)
    (tracks : Tracks) (key k : Z) (b : box) :
  dict_get k (selected_boxes (snd (start_process im0 tracks key s))) = Some b ->
  dict_get k (selected_boxes s) = Some b
  \/ exists c, In (b, (c, k)) (detections tracks).
Proof.
  intros H.
  destruct (t_ids tracks) as [ts|] eqn:Ht.
  2:{ rewrite (@frame_no_tracks s im0 tracks key Ht) in H. now left. }
  destruct (t_boxes tracks) as [bs|] eqn:Hb.
  2:{ left. revert H. unfold start_process.
      cbn [Py.bind Py.modify Py.gets trk_ids set_tracks]. rewrite Ht.
      rewrite display_bind. unfold annotate_tracks.
      cbn [Py.bind Py.modify Py.gets boxes clss trk_ids set_tracks set_annotator].
      rewrite Hb. cbn [zip3 Py.raise Py.bind]. unfold Py.raise. cbn. auto. }
  destruct (t_clss tracks) as [cs|] eqn:Hc.
  2:{ left. revert H. unfold start_process.
      cbn [Py.bind Py.modify Py.gets trk_ids set_tracks]. rewrite Ht.
      rewrite display_bind. unfold annotate_tracks.
      cbn [Py.bind Py.modify Py.gets boxes clss trk_ids set_tracks set_annotator].
      rewrite Hb, Hc. cbn [zip3 Py.raise Py.bind]. unfold Py.raise. cbn. auto. }
  set (R := fun s s' : DistanceCalculation =>
              forall k b, dict_get k (selected_boxes s') = Some b ->
                dict_get k (selected_boxes s) = Some b
                \/ exists c, In (b, (c, k)) (detections tracks)).
  assert (Rr : forall s, R s s) by (intros s0 k0 b0 H0; now left).
  assert (Rt : forall s1 s2 s3, R s1 s2 -> R s2 s3 -> R s1 s3).
  { intros s1 s2 s3 H12 H23 k0 b0 H0.
    destruct (H23 k0 b0 H0) as [G|G]; [now apply H12 | now right]. }
  assert (W : forall A (m : M A), stable same_selection m -> stable R m).
  { intros A m. apply stable_weaken. intros s1 s2 (E & _) k0 b0 H0.
    left. now rewrite <- E. }
  assert (T : forall det, In det (detections tracks) -> stable R (track_step det)).
  { intros [b1 [c1 t1]] Hin s0. rewrite track_step_run.
    destruct (annotator s0); [|apply Rr].
    destruct (names_get c1 (names (args s0))); [|apply Rr].
    intros k0 b0. cbn [snd selected_boxes set_selected_boxes].
    rewrite refresh_with_spec.
    destruct ((len (selected_boxes s0) =? 2) && dict_contains t1 (selected_boxes s0));
      [|now left].
    destruct (Z.eq_dec t1 k0) as [->|Hne].
    - rewrite dict_get_set_same. intros E. injection E as <-. right. now exists c1.
    - rewrite dict_get_set_other by exact Hne. now left. }
  rewrite (@frame_start s im0 tracks key bs cs ts Hb Hc Ht) in H.
  revert k b H.
  match goal with
  | |- forall k b, dict_get k (selected_boxes (snd (?m ?s0))) = Some b -> _ =>
      assert (G : stable R m); [|exact (G s0)]
  end.
  apply stable_bind; [exact Rt | | intros out; apply stable_display; exact Rr].
  apply stable_bind; [exact Rt | apply stable_for_each_in; assumption |].
  intros _. apply W.
  stable_step; [apply stable_measure|]. repeat stable_step.
Qed.

Lemma frame_step_writes_from_frame_witness :
  dict_get 1 (selected_boxes (snd (start_process [] one_moved 0 both_selected)))
  = Some (Box 1 1 11 11)
  /\ (dict_get 1 (selected_boxes both_selected) = Some (Box 1 1 11 11)
      \/ exists c, In (Box 1 1 11 11, (c, 1)) (detections one_moved)).
Proof.
  assert (H : dict_get 1 (selected_boxes
                            (snd (start_process [] one_moved 0 both_selected)))
              = Some (Box 1 1 11 11)) by reflexivity.
  split; [exact H|].
  exact (@frame_step_writes_from_frame both_selected [] one_moved 0 1
           (Box 1 1 11 11) H).
Defined.

(* ------------------------------------------------------------------ *)
(** ** The same frame twice *)

(** In every state the host loop can reach the selection is a proper
    dictionary: no key twice. *)
Lemma run_NoDup (l : list input) :
  forall s : DistanceCalculation,
    NoDup (dict_keys (selected_boxes s)) ->
    NoDup (dict_keys (selected_boxes (run l s))).
Proof.
  induction l as [|i l IH]; intros s H; [exact H|].
  cbn [run fold_left]. apply IH.
  destruct i as [event x y|im0 tracks key]; cbn [step].
  - destruct (Z.eq_dec event EVENT_LBUTTONDOWN) as [->|Hl].
    + rewrite primary_click_selection.
      destruct (left_mouse_count s + 1 <=? 2); [|exact H].
      now apply click_fold_NoDup.
    + destruct (Z.eq_dec event EVENT_RBUTTONDOWN) as [->|Hr]; [constructor|].
      now rewrite other_event_ignored.
  - now destruct (stable_start_process im0 tracks key s) as (-> & _).
Qed.

Lemma dict_get_absent (k : Z) (d : dict) :
  ~ In k (dict_keys d) -> dict_get k d = None.
Proof.
  intros H. destruct (dict_get k d) eqn:G; [|reflexivity].
  exfalso. apply H. apply dict_contains_keys. unfold dict_contains. now rewrite G.
Qed.

(** Two dictionaries with the same keys in the same order and the same value
    at every key are equal. *)
Lemma dict_ext (d1 : dict) :
  forall d2 : dict,
    NoDup (dict_keys d1) -> dict_keys d1 = dict_keys d2 ->
    (forall k, dict_get k d1 = dict_get k d2) -> d1 = d2.
Proof.
  induction d1 as [|[k v] d1 IH]; intros [|[k' v'] d2] Hnd Hk Hg;
    try discriminate; [reflexivity|].
  cbn [dict_keys map fst] in Hk. injection Hk as <- Hk.
  inversion Hnd as [|? ? Hnot Hnd']; subst.
  pose proof (Hg k) as Gk. cbn [dict_get] in Gk. rewrite Z.eqb_refl in Gk.
  injection Gk as <-. f_equal. apply IH; [exact Hnd' | exact Hk |].
  intros k0. destruct (Z.eq_dec k k0) as [<-|Hne].
  - assert (Hnot2 : ~ In k (dict_keys d2)).
    { unfold dict_keys. rewrite <- Hk. exact Hnot. }
    now rewrite (@dict_get_absent k d1 Hnot), (@dict_get_absent k d2 Hnot2).
  - specialize (Hg k0). cbn [dict_get] in Hg.
    apply Z.eqb_neq in Hne. now rewrite Hne in Hg.
Qed.

Lemma refresh_fold_idem (dets : list (box * (Z * Z))) (d : dict) :
  NoDup (dict_keys d) ->
  fold_left refresh_with dets (fold_left refresh_with dets d)
  = fold_left refresh_with dets d.
Proof.
  intros Hnd.
  destruct (Z.eq_dec (len d) 2) as [H2|Hn].
  2:{ assert (E : forall l d0, len d0 <> 2 -> fold_left refresh_with l d0 = d0).
      { induction l as [|det l IHl]; intros d0 H0; [reflexivity|].
        cbn [fold_left]. rewrite refresh_with_other by exact H0. now apply IHl. }
      rewrite (E dets d Hn). apply (E dets d Hn). }
  set (d' := fold_left refresh_with dets d).
  assert (K : dict_keys d' = dict_keys d) by apply refresh_fold_keys.
  assert (L : len d' = 2) by (unfold d'; now rewrite refresh_fold_len).
  apply dict_ext.
  - rewrite refresh_fold_keys, K. exact Hnd.
  - apply refresh_fold_keys.
  - intros k.
    pose proof (@refresh_fold_get dets d H2 k) as R1.
    pose proof (@refresh_fold_get dets d' L k) as R2.
    fold d' in R1.
    destruct (dict_get k d) as [b|] eqn:G.
    + specialize (R1 b eq_refl). rewrite R1.
      rewrite (R2 _ R1). now destruct (last_box k dets).
    + assert (N : ~ In k (dict_keys d)).
      { intros Hin. apply dict_contains_keys in Hin. unfold dict_contains in Hin.
        now rewrite G in Hin. }
      rewrite (@dict_get_absent k d') by now rewrite K.
      apply dict_get_absent. now rewrite refresh_fold_keys, K.
Qed.

(** X19. Delivering the same detections a second time changes the selection
    no further: in every state reached from a fresh object, with a label for
    every class of the frame, two frame steps on the same detections leave
    the selection the first one left. *)
Theorem frame_step_twice (l : list input) (a : Args) (env : bool)
    (im0 im1 : image) (tracks : Tracks) (k0 k1 : Z) :
  labelled a (detections tracks) = true ->
  selected_boxes
    (run (l ++ [Frame im0 tracks k0; Frame im1 tracks k1]) (init a env))
  = selected_boxes (run (l ++ [Frame im0 tracks k0]) (init a env)).
Proof.
  intros Hl. rewrite !run_app. set (s := run l (init a env)).
  assert (A : args s = a).
  { unfold s. clear. induction l as [|i l IH] using rev_ind; [reflexivity|].
    rewrite run_app. cbn [run fold_left].
    destruct i as [event x y|f t k]; cbn [step].
    - destruct (mouse_event_fields event x y (run l (init a env))) as (E & _).
      now rewrite E.
    - destruct (stable_start_process f t k (run l (init a env))) as (_ & _ & E & _).
      now rewrite E. }
  assert (Hnd : NoDup (dict_keys (selected_boxes s)))
    by (apply run_NoDup; constructor).
  cbn [run fold_left step].
  rewrite start_process_selection.
  - rewrite start_process_selection by now rewrite A.
    now apply refresh_fold_idem.
  - destruct (stable_start_process im0 tracks k0 s) as (_ & _ & E & _).
    now rewrite E, A.
Qed.

Lemma frame_step_twice_witness :
  labelled sample_args (detections one_moved) = true
  /\ selected_boxes
       (run ([Frame [] two_apart 0; Mouse EVENT_LBUTTONDOWN 5 5;
              Mouse EVENT_LBUTTONDOWN 105 5]
             ++ [Frame [] one_moved 0; Frame [] one_moved 0]) (init sample_args true))
     = [(1, Box 1 1 11 11); (2, Box 100 0 110 10)].
Proof.
  split; [reflexivity|].
  rewrite (@frame_step_twice [Frame [] two_apart 0; Mouse EVENT_LBUTTONDOWN 5 5;
                              Mouse EVENT_LBUTTONDOWN 105 5]
             sample_args true [] [] one_moved 0 0 eq_refl).
  reflexivity.
Defined.
